(** * Guess the Phrase: round state machine and input recognisers

    A shallow embedding of the game logic of [app.js] (the script listed
    after the README text) and of its factored copy [movement.js]:
    the swipe classifier, the tilt recogniser, the wall-clock round timer
    and the round controller ([advance], [startRound], [endRound]),
    together with the phrase parser, the deck shuffle and the handlers of
    the setup form and of the buttons around a round.

    Conventions of the embedding.
    - The global [State] object is a record threaded through every
      function; the [Swipe] object likewise.
    - [Date.now()] is an explicit argument [now] (milliseconds, [Z]).
    - [setTimeout] callbacks are kept in a queue of pending tasks ordered
      by due time; the browser's event loop is [fireTimeout] / [runDue].
    - [setInterval] is the [timerId] field: [Some startedAt] while the
      interval is live ([startedAt] is the value captured by the
      callback's closure), [None] once cleared.
    - Screen coordinates and tilt angles are exact rationals ([Q]); the
      rounding of IEEE doubles is not modelled.
    - The timer setting and the reported time are whole seconds ([Z]).
      The script keeps whatever finite number the form holds, so a
      fractional setting is outside the model; the statements about the
      timer compare the setting with the whole number of elapsed seconds,
      as the script does, and read the same for a fractional setting.
    - Rendering (HUD, feedback banner, status text, vibration, wake lock,
      orientation lock, settings storage) has no influence on the state
      machine and is left out, except for the results panel written by
      [renderResults], which is the round's results snapshot. *)

From Stdlib Require Import String Ascii ZArith QArith Qabs List Permutation Bool
  Lia Lqa.
Import ListNotations.

Local Open Scope Z_scope.

(** ** Data model *)

(** [State.mode]: ['setup' | 'running' | 'finished']. *)
Inductive Mode : Type := Setup | Running | Finished.

(** The argument of [advance]: ['got' | 'pass' | 'next']. *)
Inductive Action : Type := Got | Pass | Next.

(** Deck entries, [{ phrase, hint }]. *)
Record Phrase : Type := { phrase : string; hint : string }.

(** The [State] object of app.js ([wakeLock] left out). *)
Record State : Type := {
  mode : Mode;
  phrasesOriginal : list Phrase;
  deck : list Phrase;
  index : nat;
  shown : nat;
  got : nat;
  pass : nat;
  timerSeconds : Z;
  timeLeft : Z;
  timerId : option Z;
  shuffleOnStart : bool;
  loopWhenFinished : bool;
  vibrateOnAction : bool;
  tiltEnabled : bool;
  tiltPermissionGranted : bool;
  tiltListenerAttached : bool;
  tiltLastActionAt : Z;
  tiltArmed : bool;
  tiltNeutralBeta : Q;
  tiltHasBaseline : bool
}.

(** Field assignments [State.f = v]. *)
Definition set_mode (v : Mode) (s : State) : State :=
  {| mode := v; phrasesOriginal := phrasesOriginal s; deck := deck s;
     index := index s; shown := shown s; got := got s; pass := pass s;
     timerSeconds := timerSeconds s; timeLeft := timeLeft s;
     timerId := timerId s; shuffleOnStart := shuffleOnStart s;
     loopWhenFinished := loopWhenFinished s;
     vibrateOnAction := vibrateOnAction s; tiltEnabled := tiltEnabled s;
     tiltPermissionGranted := tiltPermissionGranted s;
     tiltListenerAttached := tiltListenerAttached s;
     tiltLastActionAt := tiltLastActionAt s; tiltArmed := tiltArmed s;
     tiltNeutralBeta := tiltNeutralBeta s;
     tiltHasBaseline := tiltHasBaseline s |}.

Definition set_phrasesOriginal (v : list Phrase) (s : State) : State :=
  {| mode := mode s; phrasesOriginal := v; deck := deck s; index := index s;
     shown := shown s; got := got s; pass := pass s;
     timerSeconds := timerSeconds s; timeLeft := timeLeft s;
     timerId := timerId s; shuffleOnStart := shuffleOnStart s;
     loopWhenFinished := loopWhenFinished s;
     vibrateOnAction := vibrateOnAction s; tiltEnabled := tiltEnabled s;
     tiltPermissionGranted := tiltPermissionGranted s;
     tiltListenerAttached := tiltListenerAttached s;
     tiltLastActionAt := tiltLastActionAt s; tiltArmed := tiltArmed s;
     tiltNeutralBeta := tiltNeutralBeta s;
     tiltHasBaseline := tiltHasBaseline s |}.

Definition set_deck (v : list Phrase) (s : State) : State :=
  {| mode := mode s; phrasesOriginal := phrasesOriginal s; deck := v;
     index := index s; shown := shown s; got := got s; pass := pass s;
     timerSeconds := timerSeconds s; timeLeft := timeLeft s;
     timerId := timerId s; shuffleOnStart := shuffleOnStart s;
     loopWhenFinished := loopWhenFinished s;
     vibrateOnAction := vibrateOnAction s; tiltEnabled := tiltEnabled s;
     tiltPermissionGranted := tiltPermissionGranted s;
     tiltListenerAttached := tiltListenerAttached s;
     tiltLastActionAt := tiltLastActionAt s; tiltArmed := tiltArmed s;
     tiltNeutralBeta := tiltNeutralBeta s;
     tiltHasBaseline := tiltHasBaseline s |}.

Definition set_index (v : nat) (s : State) : State :=
  {| mode := mode s; phrasesOriginal := phrasesOriginal s; deck := deck s;
     index := v; shown := shown s; got := got s; pass := pass s;
     timerSeconds := timerSeconds s; timeLeft := timeLeft s;
     timerId := timerId s; shuffleOnStart := shuffleOnStart s;
     loopWhenFinished := loopWhenFinished s;
     vibrateOnAction := vibrateOnAction s; tiltEnabled := tiltEnabled s;
     tiltPermissionGranted := tiltPermissionGranted s;
     tiltListenerAttached := tiltListenerAttached s;
     tiltLastActionAt := tiltLastActionAt s; tiltArmed := tiltArmed s;
     tiltNeutralBeta := tiltNeutralBeta s;
     tiltHasBaseline := tiltHasBaseline s |}.

Definition set_shown (v : nat) (s : State) : State :=
  {| mode := mode s; phrasesOriginal := phrasesOriginal s; deck := deck s;
     index := index s; shown := v; got := got s; pass := pass s;
     timerSeconds := timerSeconds s; timeLeft := timeLeft s;
     timerId := timerId s; shuffleOnStart := shuffleOnStart s;
     loopWhenFinished := loopWhenFinished s;
     vibrateOnAction := vibrateOnAction s; tiltEnabled := tiltEnabled s;
     tiltPermissionGranted := tiltPermissionGranted s;
     tiltListenerAttached := tiltListenerAttached s;
     tiltLastActionAt := tiltLastActionAt s; tiltArmed := tiltArmed s;
     tiltNeutralBeta := tiltNeutralBeta s;
     tiltHasBaseline := tiltHasBaseline s |}.

Definition set_got (v : nat) (s : State) : State :=
  {| mode := mode s; phrasesOriginal := phrasesOriginal s; deck := deck s;
     index := index s; shown := shown s; got := v; pass := pass s;
     timerSeconds := timerSeconds s; timeLeft := timeLeft s;
     timerId := timerId s; shuffleOnStart := shuffleOnStart s;
     loopWhenFinished := loopWhenFinished s;
     vibrateOnAction := vibrateOnAction s; tiltEnabled := tiltEnabled s;
     tiltPermissionGranted := tiltPermissionGranted s;
     tiltListenerAttached := tiltListenerAttached s;
     tiltLastActionAt := tiltLastActionAt s; tiltArmed := tiltArmed s;
     tiltNeutralBeta := tiltNeutralBeta s;
     tiltHasBaseline := tiltHasBaseline s |}.

Definition set_pass (v : nat) (s : State) : State :=
  {| mode := mode s; phrasesOriginal := phrasesOriginal s; deck := deck s;
     index := index s; shown := shown s; got := got s; pass := v;
     timerSeconds := timerSeconds s; timeLeft := timeLeft s;
     timerId := timerId s; shuffleOnStart := shuffleOnStart s;
     loopWhenFinished := loopWhenFinished s;
     vibrateOnAction := vibrateOnAction s; tiltEnabled := tiltEnabled s;
     tiltPermissionGranted := tiltPermissionGranted s;
     tiltListenerAttached := tiltListenerAttached s;
     tiltLastActionAt := tiltLastActionAt s; tiltArmed := tiltArmed s;
     tiltNeutralBeta := tiltNeutralBeta s;
     tiltHasBaseline := tiltHasBaseline s |}.

Definition set_timeLeft (v : Z) (s : State) : State :=
  {| mode := mode s; phrasesOriginal := phrasesOriginal s; deck := deck s;
     index := index s; shown := shown s; got := got s; pass := pass s;
     timerSeconds := timerSeconds s; timeLeft := v; timerId := timerId s;
     shuffleOnStart := shuffleOnStart s;
     loopWhenFinished := loopWhenFinished s;
     vibrateOnAction := vibrateOnAction s; tiltEnabled := tiltEnabled s;
     tiltPermissionGranted := tiltPermissionGranted s;
     tiltListenerAttached := tiltListenerAttached s;
     tiltLastActionAt := tiltLastActionAt s; tiltArmed := tiltArmed s;
     tiltNeutralBeta := tiltNeutralBeta s;
     tiltHasBaseline := tiltHasBaseline s |}.

Definition set_timerId (v : option Z) (s : State) : State :=
  {| mode := mode s; phrasesOriginal := phrasesOriginal s; deck := deck s;
     index := index s; shown := shown s; got := got s; pass := pass s;
     timerSeconds := timerSeconds s; timeLeft := timeLeft s; timerId := v;
     shuffleOnStart := shuffleOnStart s;
     loopWhenFinished := loopWhenFinished s;
     vibrateOnAction := vibrateOnAction s; tiltEnabled := tiltEnabled s;
     tiltPermissionGranted := tiltPermissionGranted s;
     tiltListenerAttached := tiltListenerAttached s;
     tiltLastActionAt := tiltLastActionAt s; tiltArmed := tiltArmed s;
     tiltNeutralBeta := tiltNeutralBeta s;
     tiltHasBaseline := tiltHasBaseline s |}.

Definition set_tiltListenerAttached (v : bool) (s : State) : State :=
  {| mode := mode s; phrasesOriginal := phrasesOriginal s; deck := deck s;
     index := index s; shown := shown s; got := got s; pass := pass s;
     timerSeconds := timerSeconds s; timeLeft := timeLeft s;
     timerId := timerId s; shuffleOnStart := shuffleOnStart s;
     loopWhenFinished := loopWhenFinished s;
     vibrateOnAction := vibrateOnAction s; tiltEnabled := tiltEnabled s;
     tiltPermissionGranted := tiltPermissionGranted s;
     tiltListenerAttached := v; tiltLastActionAt := tiltLastActionAt s;
     tiltArmed := tiltArmed s; tiltNeutralBeta := tiltNeutralBeta s;
     tiltHasBaseline := tiltHasBaseline s |}.

Definition set_tiltLastActionAt (v : Z) (s : State) : State :=
  {| mode := mode s; phrasesOriginal := phrasesOriginal s; deck := deck s;
     index := index s; shown := shown s; got := got s; pass := pass s;
     timerSeconds := timerSeconds s; timeLeft := timeLeft s;
     timerId := timerId s; shuffleOnStart := shuffleOnStart s;
     loopWhenFinished := loopWhenFinished s;
     vibrateOnAction := vibrateOnAction s; tiltEnabled := tiltEnabled s;
     tiltPermissionGranted := tiltPermissionGranted s;
     tiltListenerAttached := tiltListenerAttached s; tiltLastActionAt := v;
     tiltArmed := tiltArmed s; tiltNeutralBeta := tiltNeutralBeta s;
     tiltHasBaseline := tiltHasBaseline s |}.

Definition set_tiltArmed (v : bool) (s : State) : State :=
  {| mode := mode s; phrasesOriginal := phrasesOriginal s; deck := deck s;
     index := index s; shown := shown s; got := got s; pass := pass s;
     timerSeconds := timerSeconds s; timeLeft := timeLeft s;
     timerId := timerId s; shuffleOnStart := shuffleOnStart s;
     loopWhenFinished := loopWhenFinished s;
     vibrateOnAction := vibrateOnAction s; tiltEnabled := tiltEnabled s;
     tiltPermissionGranted := tiltPermissionGranted s;
     tiltListenerAttached := tiltListenerAttached s;
     tiltLastActionAt := tiltLastActionAt s; tiltArmed := v;
     tiltNeutralBeta := tiltNeutralBeta s;
     tiltHasBaseline := tiltHasBaseline s |}.

Definition set_tiltNeutralBeta (v : Q) (s : State) : State :=
  {| mode := mode s; phrasesOriginal := phrasesOriginal s; deck := deck s;
     index := index s; shown := shown s; got := got s; pass := pass s;
     timerSeconds := timerSeconds s; timeLeft := timeLeft s;
     timerId := timerId s; shuffleOnStart := shuffleOnStart s;
     loopWhenFinished := loopWhenFinished s;
     vibrateOnAction := vibrateOnAction s; tiltEnabled := tiltEnabled s;
     tiltPermissionGranted := tiltPermissionGranted s;
     tiltListenerAttached := tiltListenerAttached s;
     tiltLastActionAt := tiltLastActionAt s; tiltArmed := tiltArmed s;
     tiltNeutralBeta := v; tiltHasBaseline := tiltHasBaseline s |}.

Definition set_tiltHasBaseline (v : bool) (s : State) : State :=
  {| mode := mode s; phrasesOriginal := phrasesOriginal s; deck := deck s;
     index := index s; shown := shown s; got := got s; pass := pass s;
     timerSeconds := timerSeconds s; timeLeft := timeLeft s;
     timerId := timerId s; shuffleOnStart := shuffleOnStart s;
     loopWhenFinished := loopWhenFinished s;
     vibrateOnAction := vibrateOnAction s; tiltEnabled := tiltEnabled s;
     tiltPermissionGranted := tiltPermissionGranted s;
     tiltListenerAttached := tiltListenerAttached s;
     tiltLastActionAt := tiltLastActionAt s; tiltArmed := tiltArmed s;
     tiltNeutralBeta := tiltNeutralBeta s; tiltHasBaseline := v |}.

(** The [Swipe] object: the single in-flight gesture. *)
Record Swipe : Type := {
  active : bool;
  startX : Q;
  startY : Q;
  startT : Z
}.

(** What [renderResults] writes to the results panel: the three counters
    and the values interpolated into the details line. *)
Record Results : Type := {
  statTotal : nat;
  statGot : nat;
  statPass : nat;
  detailsReason : string;
  detailsTotal : nat;
  detailsRemaining : nat
}.

(** Closures handed to [setTimeout]. *)
Inductive Task : Type :=
| AdvanceDone (atEnd : bool)     (* the 420 ms callback of [advance] *)
| RoundFinish (reason : string). (* the 250 ms callback of [endRound] *)

(** The program state: the two mutable objects, the pending timeouts and
    the rendered results panel. *)
Record World : Type := {
  St : State;
  Sw : Swipe;
  timeouts : list (Z * Task);
  results : option Results
}.

Definition with_St (s : State) (w : World) : World :=
  {| St := s; Sw := Sw w; timeouts := timeouts w; results := results w |}.

Definition with_Sw (sw : Swipe) (w : World) : World :=
  {| St := St w; Sw := sw; timeouts := timeouts w; results := results w |}.

Definition with_timeouts (q : list (Z * Task)) (w : World) : World :=
  {| St := St w; Sw := Sw w; timeouts := q; results := results w |}.

Definition with_results (r : option Results) (w : World) : World :=
  {| St := St w; Sw := Sw w; timeouts := timeouts w; results := r |}.

(** The initial values of [State] and [Swipe] in app.js. *)
Definition State0 : State :=
  {| mode := Setup; phrasesOriginal := []; deck := []; index := 0;
     shown := 0; got := 0; pass := 0;
     timerSeconds := 60; timeLeft := 60; timerId := None;
     shuffleOnStart := true; loopWhenFinished := false;
     vibrateOnAction := true;
     tiltEnabled := false; tiltPermissionGranted := false;
     tiltListenerAttached := false; tiltLastActionAt := 0;
     tiltArmed := true; tiltNeutralBeta := 0%Q; tiltHasBaseline := false |}.

Definition Swipe0 : Swipe :=
  {| active := false; startX := 0%Q; startY := 0%Q; startT := 0 |}.

Definition World0 : World :=
  {| St := State0; Sw := Swipe0; timeouts := []; results := None |}.

Definition isRunning (s : State) : bool :=
  match mode s with Running => true | _ => false end.

(** [setTimeout(task, delay)] called at [now]: the queue is kept ordered by
    due time, callbacks due at the same instant in scheduling order. *)
Fixpoint schedule (due : Z) (t : Task) (q : list (Z * Task))
  : list (Z * Task) :=
  match q with
  | [] => [(due, t)]
  | (d, t') :: q' =>
      if d <=? due then (d, t') :: schedule due t q' else (due, t) :: q
  end.

Definition setTimeout (t : Task) (delay : Z) (now : Z) (w : World) : World :=
  with_timeouts (schedule (now + delay) t (timeouts w)) w.

(** ** Round timer ([startTimer], [stopTimer]) and tilt listener handle *)

Definition stopTimer (s : State) : State :=
  match timerId s with
  | Some _ => set_timerId None s
  | None => s
  end.

Definition startTimer (now : Z) (s : State) : State :=
  set_timerId (Some now) (stopTimer s).

Definition attachTiltListener (s : State) : State :=
  if tiltListenerAttached s then s else set_tiltListenerAttached true s.

Definition disableTiltListener (s : State) : State :=
  if tiltListenerAttached s then set_tiltListenerAttached false s else s.

(** [needsPermission] is the platform query [isIOSNeedsMotionPermission()]. *)
Definition maybeEnableTiltDuringGame (needsPermission : bool) (s : State)
  : State :=
  if negb (tiltEnabled s) then disableTiltListener s
  else if needsPermission && negb (tiltPermissionGranted s) then s
  else attachTiltListener s.

(** ** Round controller *)

Definition setScreen (m : Mode) (s : State) : State := set_mode m s.

Definition renderResults (reason : string) (s : State) : Results :=
  {| statTotal := shown s; statGot := got s; statPass := pass s;
     detailsReason := reason;
     detailsTotal := length (deck s);
     detailsRemaining := (length (deck s) - shown s)%nat |}.

(** The callback [endRound] hands to [setTimeout]. *)
Definition roundFinish (reason : string) (w : World) : World :=
  let s := setScreen Finished (St w) in
  with_results (Some (renderResults reason s)) (with_St s w).

Definition endRound (reason : string) (now : Z) (w : World) : World :=
  let s := disableTiltListener (stopTimer (St w)) in
  setTimeout (RoundFinish reason) 250 now (with_St s w).

Definition reachedEnd : string := "Reached the end of the list".
Definition timeIsUp : string := "Time is up".
Definition endedEarly : string := "Ended early".

Definition canLoop (s : State) : bool :=
  loopWhenFinished s && (0 <? length (deck s))%nat.

Definition advance (action : Action) (now : Z) (w : World) : World :=
  let s := St w in
  if negb (isRunning s) then w
  else
    match nth_error (deck s) (index s) with
    | None =>
        if canLoop s then with_St (set_index 0%nat s) w
        else endRound reachedEnd now w
    | Some _ =>
        let s := set_shown (S (shown s)) s in
        let s := match action with Got => set_got (S (got s)) s | _ => s end in
        let s := match action with Pass => set_pass (S (pass s)) s | _ => s end in
        let s := set_index (S (index s)) s in
        let atEnd := (length (deck s) <=? index s)%nat in
        setTimeout (AdvanceDone atEnd) 420 now (with_St s w)
    end.

(** The callback [advance] hands to [setTimeout]; [atEnd] is the value the
    closure captured, the loop option and the deck are read when it runs. *)
Definition advanceDone (atEnd : bool) (now : Z) (w : World) : World :=
  if atEnd then
    if canLoop (St w) then with_St (set_index 0%nat (St w)) w
    else endRound reachedEnd now w
  else w.

(** Interval callback of [startTimer]; it no longer runs once the interval
    is cleared. *)
Definition timerTick (now : Z) (w : World) : World :=
  match timerId (St w) with
  | None => w
  | Some startedAt =>
      let elapsed := (now - startedAt) / 1000 in
      let s := set_timeLeft (Z.max 0 (timerSeconds (St w) - elapsed)) (St w) in
      if timeLeft s <=? 0 then endRound timeIsUp now (with_St s w)
      else with_St s w
  end.

(** Array element assignment [arr[n] = v] (in range). *)
Fixpoint assign {A : Type} (n : nat) (v : A) (l : list A) : list A :=
  match l, n with
  | [], _ => []
  | _ :: t, O => v :: t
  | h :: t, S n' => h :: assign n' v t
  end.

(** [[arr[i], arr[j]] = [arr[j], arr[i]]]. *)
Definition swap {A : Type} (i j : nat) (l : list A) : list A :=
  match nth_error l i, nth_error l j with
  | Some a, Some b => assign j a (assign i b l)
  | _, _ => l
  end.

(** Fisher-Yates; [rnd i] stands for the draw
    [Math.floor(Math.random() * (i + 1))] made at loop index [i]. *)
Fixpoint shuffleFrom {A : Type} (rnd : nat -> nat) (i : nat) (arr : list A)
  : list A :=
  match i with
  | O => arr
  | S i' => shuffleFrom rnd i' (swap i (rnd i mod (i + 1))%nat arr)
  end.

Definition fisherYatesShuffle {A : Type} (rnd : nat -> nat) (arr : list A)
  : list A :=
  shuffleFrom rnd (length arr - 1)%nat arr.

Definition buildDeck (rnd : nat -> nat) (phrases : list Phrase) (s : State)
  : list Phrase :=
  let deck := map (fun p => {| phrase := phrase p; hint := hint p |}) phrases in
  if shuffleOnStart s then fisherYatesShuffle rnd deck else deck.

(** What [startRound] reports: it either starts the round or raises the
    alert of the empty-list check and returns early. *)
Inductive StartOutcome : Type :=
| RoundStarted
| ValidationError (alert : string).

Definition noPhrases : string := "Please add at least one phrase to start.".

(** [phrases] is [parsePhrases(phrasesInput.value)]. *)
Definition startRound (phrases : list Phrase) (rnd : nat -> nat)
    (needsPermission : bool) (now : Z) (w : World) : World * StartOutcome :=
  match phrases with
  | [] => (w, ValidationError noPhrases)
  | _ :: _ =>
      let s := St w in
      let s := set_phrasesOriginal phrases s in
      let s := set_deck (buildDeck rnd phrases s) s in
      let s := set_index 0%nat s in
      let s := set_shown 0%nat s in
      let s := set_got 0%nat s in
      let s := set_pass 0%nat s in
      let s := set_timeLeft (timerSeconds s) s in
      let s := set_tiltLastActionAt 0 s in
      let s := set_tiltArmed true s in
      let s := set_tiltHasBaseline false s in
      let s := setScreen Running s in
      let s := maybeEnableTiltDuringGame needsPermission s in
      let s := startTimer now s in
      (with_St s w, RoundStarted)
  end.

(** The "Edit list" button of the results screen. *)
Definition editList (w : World) : World :=
  with_St (setScreen Setup (disableTiltListener (stopTimer (St w)))) w.

(** ** Input recognisers (movement.js, and the same code inline in app.js)

    Each handler ends with at most one call [advance(action)]; it is
    modelled as returning that action, and [emit] performs the call. *)

Definition SWIPE_THRESHOLD_PX : Q := 42.
Definition SWIPE_MAX_OFF_AXIS : Q := 80.
Definition SWIPE_MAX_MS : Z := 800.

(** The tuning knobs [TILT]. *)
Module TILT.
Definition forwardTriggerDelta : Q := 18.
Definition backwardTriggerDelta : Q := -18.
Definition neutralZoneAbs : Q := 10.
Definition minIntervalMs : Z := 700.
Definition baselineSmoothing : Q := 0.12.
End TILT.

Definition Qltb (a b : Q) : bool := negb (Qle_bool b a).

Definition swipeStart (x y : Q) (now : Z) (s : State) (sw : Swipe) : Swipe :=
  if negb (isRunning s) then sw
  else {| active := true; startX := x; startY := y; startT := now |}.

Definition swipeEnd (x y : Q) (now : Z) (s : State) (sw : Swipe)
  : Swipe * option Action :=
  if negb (active sw) || negb (isRunning s) then (sw, None)
  else
    let sw' := {| active := false; startX := startX sw;
                  startY := startY sw; startT := startT sw |} in
    let dx := (x - startX sw)%Q in
    let dy := (y - startY sw)%Q in
    let dt := now - startT sw in
    let absX := Qabs dx in
    let absY := Qabs dy in
    let isQuickEnough := dt <=? SWIPE_MAX_MS in
    let isFarEnough := Qle_bool SWIPE_THRESHOLD_PX absX in
    let isMostlyHorizontal := Qle_bool absY SWIPE_MAX_OFF_AXIS in
    if isQuickEnough && isFarEnough && isMostlyHorizontal then
      (sw', Some (if Qltb 0 dx then Got else Pass))
    else (sw', None).

Definition shouldListenTilt (s : State) : bool :=
  tiltEnabled s && isRunning s.

Definition calibrateBaseline (beta : Q) (s : State) : State :=
  if negb (tiltHasBaseline s) then
    set_tiltHasBaseline true (set_tiltNeutralBeta beta s)
  else
    let delta := (beta - tiltNeutralBeta s)%Q in
    if Qle_bool (Qabs delta) (TILT.neutralZoneAbs + 4) then
      set_tiltNeutralBeta
        (tiltNeutralBeta s + delta * TILT.baselineSmoothing)%Q s
    else s.

(** [beta] is [None] when [e.beta] is not a number. *)
Definition onDeviceOrientation (beta : option Q) (now : Z) (s : State)
  : State * option Action :=
  if negb (shouldListenTilt s) then (s, None)
  else
    match beta with
    | None => (s, None)
    | Some beta =>
        let s := calibrateBaseline beta s in
        let delta := (beta - tiltNeutralBeta s)%Q in
        if negb (tiltArmed s) then
          if Qle_bool (Qabs delta) TILT.neutralZoneAbs
          then (set_tiltArmed true s, None)
          else (s, None)
        else if now - tiltLastActionAt s <? TILT.minIntervalMs then (s, None)
        else if Qle_bool TILT.forwardTriggerDelta delta then
          (set_tiltLastActionAt now (set_tiltArmed false s), Some Got)
        else if Qle_bool delta TILT.backwardTriggerDelta then
          (set_tiltLastActionAt now (set_tiltArmed false s), Some Pass)
        else (s, None)
    end.

Definition onRoundStartResetTiltState (s : State) : State :=
  set_tiltHasBaseline false (set_tiltArmed true (set_tiltLastActionAt 0 s)).

(** The recogniser run over a stream of timed samples, with the action
    each sample emitted. *)
Fixpoint tiltTrace (samples : list (Q * Z)) (s : State)
  : State * list (option Action) :=
  match samples with
  | [] => (s, [])
  | (beta, now) :: rest =>
      let (s1, a) := onDeviceOrientation (Some beta) now s in
      let (s2, acts) := tiltTrace rest s1 in
      (s2, a :: acts)
  end.

(** ** The event loop *)

Definition emit (a : option Action) (now : Z) (w : World) : World :=
  match a with
  | Some action => advance action now w
  | None => w
  end.

Definition runTask (t : Task) (now : Z) (w : World) : World :=
  match t with
  | AdvanceDone atEnd => advanceDone atEnd now w
  | RoundFinish reason => roundFinish reason w
  end.

(** Run the next pending timeout if it is due. *)
Definition fireTimeout (now : Z) (w : World) : World :=
  match timeouts w with
  | (due, t) :: q =>
      if due <=? now then runTask t now (with_timeouts q w) else w
  | [] => w
  end.

(** Run every timeout that is due at [now]; the callbacks only schedule
    timeouts that are due later, so one pass over the queue suffices. *)
Definition runDue (now : Z) (w : World) : World :=
  Nat.iter (length (timeouts w)) (fireTimeout now) w.

(** Events the page delivers to the handlers above. *)
Inductive Event : Type :=
| PointerDown (x y : Q)            (* touchstart, pointerdown *)
| PointerUp (x y : Q)              (* touchend, pointerup *)
| Tap (action : Action)            (* tapLeft, tapRight, nextBtn *)
| EndClick                         (* endBtn *)
| Orientation (beta : option Q)    (* deviceorientation *)
| Tick                             (* the timer's interval *)
| Timeouts                         (* due setTimeout callbacks *)
| EditList.                        (* editListBtn *)

Definition handle (now : Z) (e : Event) (w : World) : World :=
  match e with
  | PointerDown x y => with_Sw (swipeStart x y now (St w) (Sw w)) w
  | PointerUp x y =>
      let (sw, a) := swipeEnd x y now (St w) (Sw w) in
      emit a now (with_Sw sw w)
  | Tap action => advance action now w
  | EndClick => endRound endedEarly now w
  | Orientation beta =>
      if tiltListenerAttached (St w) then
        let (s, a) := onDeviceOrientation beta now (St w) in
        emit a now (with_St s w)
      else w
  | Tick => timerTick now w
  | Timeouts => runDue now w
  | EditList => editList w
  end.

Fixpoint run (events : list (Z * Event)) (w : World) : World :=
  match events with
  | [] => w
  | (now, e) :: rest => run rest (handle now e w)
  end.

(** ** Phrase list parsing ([parsePhrases])

    A string is the sequence of its code units, here those below 256;
    [isWhiteSpace] is what [String.prototype.trim] strips in that range:
    tab, line feed, vertical tab, form feed, carriage return, space and
    no-break space. *)

Definition isWhiteSpace (c : ascii) : bool :=
  existsb (Ascii.eqb c) ["009"; "010"; "011"; "012"; "013"; " "; "160"]%char.

Fixpoint trimStart (s : string) : string :=
  match s with
  | String c rest => if isWhiteSpace c then trimStart rest else s
  | EmptyString => EmptyString
  end.

Fixpoint trimEnd (s : string) : string :=
  match s with
  | String c rest =>
      match trimEnd rest with
      | EmptyString => if isWhiteSpace c then EmptyString else String c EmptyString
      | kept => String c kept
      end
  | EmptyString => EmptyString
  end.

Definition trim (s : string) : string := trimEnd (trimStart s).

(** Put a character in front of the first piece of a split. *)
Definition consHead (c : ascii) (parts : list string) : list string :=
  match parts with
  | first :: others => String c first :: others
  | [] => [String c EmptyString]
  end.

(** [text.split(/\r?\n/)]. *)
Fixpoint splitLines (s : string) : list string :=
  match s with
  | EmptyString => [EmptyString]
  | String c rest =>
      if Ascii.eqb c "010"%char then EmptyString :: splitLines rest
      else
        match rest with
        | String c2 rest' =>
            if Ascii.eqb c "013"%char && Ascii.eqb c2 "010"%char
            then EmptyString :: splitLines rest'
            else consHead c (splitLines rest)
        | EmptyString => consHead c (splitLines rest)
        end
  end.

(** [line.split('::')]: leftmost occurrences, not overlapping. *)
Fixpoint splitColons (s : string) : list string :=
  match s with
  | EmptyString => [EmptyString]
  | String c rest =>
      match rest with
      | String c2 rest' =>
          if Ascii.eqb c ":"%char && Ascii.eqb c2 ":"%char
          then EmptyString :: splitColons rest'
          else consHead c (splitColons rest)
      | EmptyString => consHead c (splitColons rest)
      end
  end.

(** [l.startsWith('#')]. *)
Definition startsWithHash (s : string) : bool :=
  match s with String c _ => Ascii.eqb c "#"%char | EmptyString => false end.

(** The object built for one kept line. *)
Definition parseLine (line : string) : Phrase :=
  let parts := splitColons line in
  {| phrase := trim (hd EmptyString parts);
     hint := trim (String.concat "::"%string (tl parts)) |}.

Definition parsePhrases (text : string) : list Phrase :=
  filter (fun o => (0 <? String.length (phrase o))%nat)
    (map parseLine
       (filter (fun l => negb (startsWithHash l))
          (filter (fun l => (0 <? String.length l)%nat)
             (map trim (splitLines text))))).


(** The state [advance] leaves when the current entry exists: the
    assignments between the lookup and the call of [setTimeout]. *)
Definition scored (action : Action) (s : State) : State :=
  let s := set_shown (S (shown s)) s in
  let s := match action with Got => set_got (S (got s)) s | _ => s end in
  let s := match action with Pass => set_pass (S (pass s)) s | _ => s end in
  set_index (S (index s)) s.

(** ** Setup options, motion permission and the buttons around a round *)

Definition set_shuffleOnStart (v : bool) (s : State) : State :=
  {| mode := mode s; phrasesOriginal := phrasesOriginal s; deck := deck s;
     index := index s; shown := shown s; got := got s; pass := pass s;
     timerSeconds := timerSeconds s; timeLeft := timeLeft s;
     timerId := timerId s; shuffleOnStart := v;
     loopWhenFinished := loopWhenFinished s;
     vibrateOnAction := vibrateOnAction s; tiltEnabled := tiltEnabled s;
     tiltPermissionGranted := tiltPermissionGranted s;
     tiltListenerAttached := tiltListenerAttached s;
     tiltLastActionAt := tiltLastActionAt s; tiltArmed := tiltArmed s;
     tiltNeutralBeta := tiltNeutralBeta s;
     tiltHasBaseline := tiltHasBaseline s |}.

Definition set_tiltEnabled (v : bool) (s : State) : State :=
  {| mode := mode s; phrasesOriginal := phrasesOriginal s; deck := deck s;
     index := index s; shown := shown s; got := got s; pass := pass s;
     timerSeconds := timerSeconds s; timeLeft := timeLeft s;
     timerId := timerId s; shuffleOnStart := shuffleOnStart s;
     loopWhenFinished := loopWhenFinished s;
     vibrateOnAction := vibrateOnAction s; tiltEnabled := v;
     tiltPermissionGranted := tiltPermissionGranted s;
     tiltListenerAttached := tiltListenerAttached s;
     tiltLastActionAt := tiltLastActionAt s; tiltArmed := tiltArmed s;
     tiltNeutralBeta := tiltNeutralBeta s;
     tiltHasBaseline := tiltHasBaseline s |}.

Definition set_tiltPermissionGranted (v : bool) (s : State) : State :=
  {| mode := mode s; phrasesOriginal := phrasesOriginal s; deck := deck s;
     index := index s; shown := shown s; got := got s; pass := pass s;
     timerSeconds := timerSeconds s; timeLeft := timeLeft s;
     timerId := timerId s; shuffleOnStart := shuffleOnStart s;
     loopWhenFinished := loopWhenFinished s;
     vibrateOnAction := vibrateOnAction s; tiltEnabled := tiltEnabled s;
     tiltPermissionGranted := v;
     tiltListenerAttached := tiltListenerAttached s;
     tiltLastActionAt := tiltLastActionAt s; tiltArmed := tiltArmed s;
     tiltNeutralBeta := tiltNeutralBeta s;
     tiltHasBaseline := tiltHasBaseline s |}.

Definition clamp (n min max : Z) : Z := Z.max min (Z.min max n).

(** The setup form as [syncOptionsFromUI] reads it.  [timerValue] is
    [Number(timerSecondsInput.value)], a whole number of seconds, [None]
    when it is not finite; the other fields are the [checked] flags of the
    four check boxes. *)
Record SetupForm : Type := {
  timerValue : option Z;
  shuffleChecked : bool;
  loopChecked : bool;
  vibrateChecked : bool;
  tiltChecked : bool
}.

Definition syncOptionsFromUI (ui : SetupForm) (s : State) : State :=
  {| mode := mode s; phrasesOriginal := phrasesOriginal s; deck := deck s;
     index := index s; shown := shown s; got := got s; pass := pass s;
     timerSeconds := match timerValue ui with
                     | Some timer => clamp timer 10 600
                     | None => 60
                     end;
     timeLeft := timeLeft s; timerId := timerId s;
     shuffleOnStart := shuffleChecked ui;
     loopWhenFinished := loopChecked ui;
     vibrateOnAction := vibrateChecked ui;
     tiltEnabled := tiltChecked ui;
     tiltPermissionGranted := tiltPermissionGranted s;
     tiltListenerAttached := tiltListenerAttached s;
     tiltLastActionAt := tiltLastActionAt s; tiltArmed := tiltArmed s;
     tiltNeutralBeta := tiltNeutralBeta s;
     tiltHasBaseline := tiltHasBaseline s |}.

(** The click handler of the start button. *)
Definition startClick (ui : SetupForm) (phrases : list Phrase)
    (rnd : nat -> nat) (needsPermission : bool) (now : Z) (w : World)
  : World * StartOutcome :=
  startRound phrases rnd needsPermission now
    (with_St (syncOptionsFromUI ui (St w)) w).

(** The click handler of the play-again button: the shuffle preference is
    forced for the call of [startRound] and put back afterwards. *)
Definition playAgain (phrases : list Phrase) (rnd : nat -> nat)
    (needsPermission : bool) (now : Z) (w : World) : World * StartOutcome :=
  let prevShuffle := shuffleOnStart (St w) in
  let w := with_St (set_shuffleOnStart true (St w)) w in
  let (w, outcome) := startRound phrases rnd needsPermission now w in
  (with_St (set_shuffleOnStart prevShuffle (St w)) w, outcome).

(** [requestMotionPermission]; [granted] tells whether the platform prompt
    resolved to ['granted'] (a rejected promise counts as not granted). *)
Definition requestMotionPermission (needsPermission granted : bool)
    (s : State) : State * bool :=
  if negb needsPermission then (set_tiltPermissionGranted true s, true)
  else (set_tiltPermissionGranted granted s, granted).

(** The click handler of the motion permission button. *)
Definition motionPermClick (needsPermission granted : bool) (s : State)
  : State :=
  let (s, ok) := requestMotionPermission needsPermission granted s in
  if negb ok then set_tiltEnabled false s
  else if isRunning s then maybeEnableTiltDuringGame needsPermission s
  else s.

(** Everything that can happen on the page: the events of a round and the
    buttons and form controls around it. *)
Inductive Step : Type :=
| Input (e : Event)
| FormChange (ui : SetupForm)
| StartClick (ui : SetupForm) (phrases : list Phrase) (rnd : nat -> nat)
| PlayAgainClick (phrases : list Phrase) (rnd : nat -> nat)
| MotionPermClick (granted : bool).

Definition step (needsPermission : bool) (now : Z) (st : Step) (w : World)
  : World :=
  match st with
  | Input e => handle now e w
  | FormChange ui => with_St (syncOptionsFromUI ui (St w)) w
  | StartClick ui phrases rnd =>
      fst (startClick ui phrases rnd needsPermission now w)
  | PlayAgainClick phrases rnd =>
      fst (playAgain phrases rnd needsPermission now w)
  | MotionPermClick granted =>
      with_St (motionPermClick needsPermission granted (St w)) w
  end.

Fixpoint session (needsPermission : bool) (steps : list (Z * Step))
    (w : World) : World :=
  match steps with
  | [] => w
  | (now, st) :: rest =>
      session needsPermission rest (step needsPermission now st w)
  end.

(** A results panel that agrees with the counters it was rendered from. *)
Definition consistentResults (r : option Results) : Prop :=
  match r with
  | None => True
  | Some r =>
      (statGot r + statPass r <= statTotal r)%nat /\
      detailsRemaining r = (detailsTotal r - statTotal r)%nat
  end.

(** Events that come from the player: pointer, tap and orientation. *)
Definition isInput (e : Event) : bool :=
  match e with
  | PointerDown _ _ | PointerUp _ _ | Tap _ | Orientation _ => true
  | _ => false
  end.

(** What every reachable state satisfies. *)
Definition wellFormed (s : State) : Prop :=
  (index s <= length (deck s))%nat /\
  (got s + pass s <= shown s)%nat /\
  0 <= timeLeft s /\
  10 <= timerSeconds s <= 600.

(** ** Sample data used by the concrete instances below *)

Definition mkPhrase (p : string) : Phrase := {| phrase := p; hint := "" |}.

Definition samplePhrases : list Phrase :=
  [mkPhrase "Popcorn"; mkPhrase "Snow day"; mkPhrase "The moon"].

Definition noShuffle : nat -> nat := fun i => i.

(** A round of three phrases started at time 1000 from the initial page. *)
Definition sampleRound : World :=
  fst (startRound samplePhrases noShuffle false 1000 World0).

(** That round right after three scored advances, no timeout run yet. *)
Definition sampleThreeAdvances : World :=
  advance Got 1300 (advance Got 1200 (advance Got 1100 sampleRound)).

(** The same round with tilt enabled and looping switched on. *)
Definition sampleTiltState : State :=
  {| mode := Running; phrasesOriginal := samplePhrases;
     deck := samplePhrases; index := 0; shown := 0; got := 0; pass := 0;
     timerSeconds := 60; timeLeft := 60; timerId := Some 1000;
     shuffleOnStart := false; loopWhenFinished := true;
     vibrateOnAction := true;
     tiltEnabled := true; tiltPermissionGranted := true;
     tiltListenerAttached := true; tiltLastActionAt := 0;
     tiltArmed := true; tiltNeutralBeta := 0%Q; tiltHasBaseline := false |}.

(** The same state once a first sample has set the baseline. *)
Definition sampleCalibrated : State := set_tiltHasBaseline true sampleTiltState.



(** Baseline 0, then +25, +0 and +20 degrees, one second apart. *)
Definition firstExcursionSamples : list (Q * Z) :=
  [(0%Q, 1000); (25%Q, 2000); (0%Q, 3000); (20%Q, 4000)].

(** A looping round in which three quick advances have just used up the
    deck and the feedback delay of the last one is still pending. *)
Definition sampleLoopRound : World :=
  {| St := sampleTiltState; Sw := Swipe0; timeouts := []; results := None |}.

Definition sampleBoundary : World :=
  advance Got 1300 (advance Got 1200 (advance Got 1100 sampleLoopRound)).

(** [endRound] called on the initial page, never started. *)
Definition setupEnded : World := runDue 250 (endRound endedEarly 0 World0).

(** The sample round ended by the timer, and [endRound] called once more
    by a late feedback callback. *)
Definition sampleFinished : World :=
  runDue 1400 (endRound timeIsUp 1100 sampleRound).

Definition sampleReEnded : World :=
  runDue 1800 (endRound reachedEnd 1500 sampleFinished).

(** Two pointer-down events in that round with no pointer-up between. *)
Definition firstStart : Swipe := swipeStart 0 0 0 (St sampleRound) Swipe0.
Definition secondStart : Swipe :=
  swipeStart 100 5 10 (St sampleRound) firstStart.

(** The sample round at its last entry, without and with looping. *)
Definition sampleLastEntry : World :=
  {| St := set_index 2%nat (St sampleRound); Sw := Swipe0; timeouts := [];
     results := None |}.

Definition sampleLastEntryLoop : World :=
  {| St := set_index 2%nat sampleTiltState; Sw := Swipe0; timeouts := [];
     results := None |}.

(** A running round with tilt on and the baseline already taken. *)
Definition sampleTiltRound : World :=
  {| St := sampleCalibrated; Sw := Swipe0; timeouts := []; results := None |}.


(** A pasted list with a comment, a blank line and a hint containing the
    separator. *)
Definition newline : string := String "010"%char EmptyString.

Definition sampleText : string :=
  ("# family list" ++ newline ++ "   " ++ newline ++
   "Popcorn :: Snack :: salty" ++ newline ++ "Snow day")%string.

Definition commentsOnly : string :=
  ("# nothing here" ++ newline ++ "   " ++ newline ++ "  # nor here")%string.

(** A setup form asking for a timer beyond the allowed range. *)
Definition sampleForm : SetupForm :=
  {| timerValue := Some 4000; shuffleChecked := false; loopChecked := true;
     vibrateChecked := false; tiltChecked := true |}.

(** The values every round starts from: tilt calibration cleared,
    counters and position at zero. *)
Definition roundReset (s : State) : Prop :=
  tiltHasBaseline s = false /\ tiltArmed s = true /\
  tiltLastActionAt s = 0 /\
  shown s = 0%nat /\ got s = 0%nat /\ pass s = 0%nat /\ index s = 0%nat.

(** ** Basic facts *)

Lemma isRunning_true (s : State) : mode s = Running -> isRunning s = true.
Proof. unfold isRunning. intros ->. reflexivity. Qed.

Lemma isRunning_false (s : State) : mode s <> Running -> isRunning s = false.
Proof. unfold isRunning. destruct (mode s); congruence. Qed.

Lemma Qle_bool_true (a b : Q) : (a <= b)%Q -> Qle_bool a b = true.
Proof. apply Qle_bool_iff. Qed.

Lemma Qle_bool_false (a b : Q) : (b < a)%Q -> Qle_bool a b = false.
Proof.
  intros H. destruct (Qle_bool a b) eqn:E; [|reflexivity].
  apply Qle_bool_iff in E. lra.
Qed.




(** ** Swipe classifier *)

(** C4 (as the code has it): [swipeStart] has no test of [Swipe.active].
    While the round is running every call records its own coordinates and
    time, so a second start during an active gesture replaces the first
    one; outside a running round the call changes nothing. *)
Theorem swipeStart_latest_wins :
  forall (s : State) (sw : Swipe) (x0 y0 x1 y1 : Q) (t0 t1 : Z),
    (mode s = Running ->
       active (swipeStart x0 y0 t0 s sw) = true /\
       swipeStart x1 y1 t1 s (swipeStart x0 y0 t0 s sw) =
         {| active := true; startX := x1; startY := y1; startT := t1 |}) /\
    (mode s <> Running -> swipeStart x1 y1 t1 s sw = sw).
Proof.
  intros s sw x0 y0 x1 y1 t0 t1. unfold swipeStart. split.
  - intros Hrun. rewrite (isRunning_true s Hrun). split; reflexivity.
  - intros Hrun. rewrite (isRunning_false s Hrun). reflexivity.
Qed.

Lemma swipeStart_latest_wins_witness :
  swipeStart 100 5 10 (St sampleRound) firstStart =
  {| active := true; startX := 100; startY := 5; startT := 10 |}.
Proof.
  apply (swipeStart_latest_wins (St sampleRound) Swipe0 0 0 100 5 0 10).
  reflexivity.
Defined.

(** C4, the claim as written fails: a second start while the gesture is
    active moves the recorded start point and time. *)
Lemma swipeStart_second_not_ignored :
  active firstStart = true /\
  startX firstStart = 0%Q /\ startX secondStart = 100%Q /\
  startT firstStart = 0 /\ startT secondStart = 10 /\
  secondStart <> firstStart.
Proof. repeat split; try reflexivity. discriminate. Qed.

(** C5: a completed swipe in a running round is rejected when it is too
    slow, too short or too far off the horizontal axis, and otherwise
    yields [Got] to the right and [Pass] to the left. *)
Theorem swipeEnd_classifies :
  forall (s0 s1 : State) (sw0 : Swipe) (x0 y0 x1 y1 : Q) (t0 t1 : Z),
    mode s0 = Running -> mode s1 = Running ->
    let dx := (x1 - x0)%Q in
    let dy := (y1 - y0)%Q in
    let dt := t1 - t0 in
    let emitted := snd (swipeEnd x1 y1 t1 s1 (swipeStart x0 y0 t0 s0 sw0)) in
    (800 < dt \/ (Qabs dx < 42)%Q \/ (80 < Qabs dy)%Q -> emitted = None) /\
    (dt <= 800 -> (42 <= Qabs dx)%Q -> (Qabs dy <= 80)%Q ->
       ((0 < dx)%Q -> emitted = Some Got) /\
       ((dx < 0)%Q -> emitted = Some Pass)).
Proof.
  intros s0 s1 sw0 x0 y0 x1 y1 t0 t1 H0 H1 dx dy dt emitted.
  subst emitted. unfold swipeEnd, swipeStart.
  rewrite (isRunning_true s0 H0), (isRunning_true s1 H1).
  cbn [active startX startY startT negb orb].
  fold dx dy dt. unfold SWIPE_MAX_MS, SWIPE_THRESHOLD_PX, SWIPE_MAX_OFF_AXIS.
  split.
  - intros [Hslow | [Hshort | Hoff]].
    + replace (dt <=? 800) with false by (symmetry; apply Z.leb_gt; lia).
      reflexivity.
    + rewrite (Qle_bool_false 42 (Qabs dx) Hshort).
      rewrite andb_false_r. reflexivity.
    + rewrite (Qle_bool_false (Qabs dy) 80 Hoff).
      rewrite andb_false_r. reflexivity.
  - intros Hquick Hfar Hflat.
    replace (dt <=? 800) with true by (symmetry; apply Z.leb_le; lia).
    rewrite (Qle_bool_true 42 (Qabs dx) Hfar).
    rewrite (Qle_bool_true (Qabs dy) 80 Hflat).
    cbn [andb snd]. unfold Qltb. split; intros Hdx.
    + rewrite (Qle_bool_false dx 0 Hdx). reflexivity.
    + rewrite (Qle_bool_true dx 0) by lra. reflexivity.
Qed.

Lemma swipeEnd_classifies_witness :
  snd (swipeEnd 50 10 1300 (St sampleRound)
         (swipeStart 0 0 1000 (St sampleRound) Swipe0)) = Some Got.
Proof.
  destruct (swipeEnd_classifies (St sampleRound) (St sampleRound) Swipe0
              0 0 50 10 1000 1300 eq_refl eq_refl) as [_ Hacc].
  apply Hacc.
  - vm_compute. discriminate.
  - vm_compute. discriminate.
  - vm_compute. discriminate.
  - reflexivity.
Defined.

(** ** Tilt recogniser *)

Section TiltSteps.
Variable s : State.
Variable beta : Q.
Variable now : Z.

Let n := tiltNeutralBeta s.

Lemma calibrate_first :
  tiltHasBaseline s = false ->
  calibrateBaseline beta s =
    set_tiltHasBaseline true (set_tiltNeutralBeta beta s).
Proof. unfold calibrateBaseline. intros ->. reflexivity. Qed.

Lemma calibrate_far :
  tiltHasBaseline s = true -> (14 < Qabs (beta - n))%Q ->
  calibrateBaseline beta s = s.
Proof.
  unfold calibrateBaseline, TILT.neutralZoneAbs. intros -> H.
  cbn [negb]. rewrite Qle_bool_false; [reflexivity|].
  subst n. lra.
Qed.

Lemma calibrate_near :
  tiltHasBaseline s = true -> (Qabs (beta - n) <= 14)%Q ->
  calibrateBaseline beta s =
    set_tiltNeutralBeta (n + (beta - n) * TILT.baselineSmoothing)%Q s.
Proof.
  unfold calibrateBaseline, TILT.neutralZoneAbs. intros -> H.
  cbn [negb]. rewrite Qle_bool_true; [reflexivity|].
  subst n. lra.
Qed.

Lemma calibrate_frame :
  mode (calibrateBaseline beta s) = mode s /\
  tiltEnabled (calibrateBaseline beta s) = tiltEnabled s /\
  tiltArmed (calibrateBaseline beta s) = tiltArmed s /\
  tiltLastActionAt (calibrateBaseline beta s) = tiltLastActionAt s /\
  tiltHasBaseline (calibrateBaseline beta s) = true.
Proof.
  unfold calibrateBaseline.
  destruct (tiltHasBaseline s) eqn:Hb; cbn [negb].
  - destruct (Qle_bool _ _); repeat split; try reflexivity; exact Hb.
  - repeat split; reflexivity.
Qed.

Let s' := calibrateBaseline beta s.
Let delta := (beta - tiltNeutralBeta s')%Q.

Hypothesis listening : shouldListenTilt s = true.

Lemma listening_calibrated : shouldListenTilt s' = true.
Proof.
  destruct calibrate_frame as (Hm & He & _).
  unfold shouldListenTilt, isRunning in *. subst s'.
  rewrite Hm, He. exact listening.
Qed.

Lemma tilt_rearm :
  tiltArmed s = false -> (Qabs delta <= 10)%Q ->
  onDeviceOrientation (Some beta) now s = (set_tiltArmed true s', None).
Proof.
  intros Ha Hd. unfold onDeviceOrientation. rewrite listening.
  cbn [negb]. fold s'. fold delta.
  destruct calibrate_frame as (_ & _ & Harm & _). fold s' in Harm.
  rewrite Harm, Ha. cbn [negb].
  unfold TILT.neutralZoneAbs. rewrite Qle_bool_true by exact Hd.
  reflexivity.
Qed.

Lemma tilt_disarmed_silent :
  tiltArmed s = false ->
  snd (onDeviceOrientation (Some beta) now s) = None /\
  tiltLastActionAt (fst (onDeviceOrientation (Some beta) now s)) =
    tiltLastActionAt s.
Proof.
  intros Ha. unfold onDeviceOrientation. rewrite listening.
  cbn [negb]. fold s'. fold delta.
  destruct calibrate_frame as (_ & _ & Harm & Hlast & _).
  fold s' in Harm, Hlast. rewrite Harm, Ha. cbn [negb].
  destruct (Qle_bool _ _); split; try reflexivity; exact Hlast.
Qed.

Lemma tilt_debounced :
  tiltArmed s = true -> now - tiltLastActionAt s < 700 ->
  onDeviceOrientation (Some beta) now s = (s', None).
Proof.
  intros Ha Ht. unfold onDeviceOrientation. rewrite listening.
  cbn [negb]. fold s'. fold delta.
  destruct calibrate_frame as (_ & _ & Harm & Hlast & _).
  fold s' in Harm, Hlast. rewrite Harm, Ha, Hlast. cbn [negb].
  unfold TILT.minIntervalMs.
  replace (now - tiltLastActionAt s <? 700) with true
    by (symmetry; apply Z.ltb_lt; exact Ht).
  reflexivity.
Qed.

Lemma tilt_fire_got :
  tiltArmed s = true -> 700 <= now - tiltLastActionAt s ->
  (18 <= delta)%Q ->
  onDeviceOrientation (Some beta) now s =
    (set_tiltLastActionAt now (set_tiltArmed false s'), Some Got).
Proof.
  intros Ha Ht Hd. unfold onDeviceOrientation. rewrite listening.
  cbn [negb]. fold s'. fold delta.
  destruct calibrate_frame as (_ & _ & Harm & Hlast & _).
  fold s' in Harm, Hlast. rewrite Harm, Ha, Hlast. cbn [negb].
  unfold TILT.minIntervalMs, TILT.forwardTriggerDelta.
  replace (now - tiltLastActionAt s <? 700) with false
    by (symmetry; apply Z.ltb_ge; exact Ht).
  rewrite Qle_bool_true by exact Hd. reflexivity.
Qed.

Lemma tilt_fire_pass :
  tiltArmed s = true -> 700 <= now - tiltLastActionAt s ->
  (delta <= -18)%Q ->
  onDeviceOrientation (Some beta) now s =
    (set_tiltLastActionAt now (set_tiltArmed false s'), Some Pass).
Proof.
  intros Ha Ht Hd. unfold onDeviceOrientation. rewrite listening.
  cbn [negb]. fold s'. fold delta.
  destruct calibrate_frame as (_ & _ & Harm & Hlast & _).
  fold s' in Harm, Hlast. rewrite Harm, Ha, Hlast. cbn [negb].
  unfold TILT.minIntervalMs, TILT.forwardTriggerDelta,
    TILT.backwardTriggerDelta.
  replace (now - tiltLastActionAt s <? 700) with false
    by (symmetry; apply Z.ltb_ge; exact Ht).
  rewrite Qle_bool_false by lra.
  rewrite Qle_bool_true by exact Hd. reflexivity.
Qed.

Lemma tilt_idle :
  tiltArmed s = true -> (-18 < delta)%Q -> (delta < 18)%Q ->
  onDeviceOrientation (Some beta) now s = (s', None).
Proof.
  intros Ha Hlo Hhi. unfold onDeviceOrientation. rewrite listening.
  cbn [negb]. fold s'. fold delta.
  destruct calibrate_frame as (_ & _ & Harm & Hlast & _).
  fold s' in Harm, Hlast. rewrite Harm, Ha. cbn [negb].
  unfold TILT.forwardTriggerDelta, TILT.backwardTriggerDelta.
  destruct (_ <? _); [reflexivity|].
  rewrite Qle_bool_false by exact Hhi.
  rewrite Qle_bool_false by exact Hlo. reflexivity.
Qed.

End TiltSteps.

(** Reduce projections of explicitly assigned fields. *)
Ltac fields :=
  cbn [mode phrasesOriginal deck index shown got pass timerSeconds timeLeft
       timerId shuffleOnStart loopWhenFinished vibrateOnAction tiltEnabled
       tiltPermissionGranted tiltListenerAttached tiltLastActionAt tiltArmed
       tiltNeutralBeta tiltHasBaseline
       set_mode set_phrasesOriginal set_deck set_index set_shown set_got
       set_pass set_timeLeft set_timerId set_tiltListenerAttached
       set_tiltLastActionAt set_tiltArmed set_tiltNeutralBeta
       set_tiltHasBaseline setScreen onRoundStartResetTiltState
       St Sw timeouts results with_St with_Sw with_timeouts with_results] in *.

Lemma Qabs_above (d z : Q) : (z < d)%Q -> (z < Qabs d)%Q.
Proof. intros H. apply Qlt_le_trans with d; [exact H | apply Qle_Qabs]. Qed.

Lemma Qabs_within (d z : Q) : (- z <= d)%Q -> (d <= z)%Q -> (Qabs d <= z)%Q.
Proof. intros H1 H2. apply Qabs_Qle_condition. split; assumption. Qed.

Lemma listening_intro (s : State) :
  mode s = Running -> tiltEnabled s = true -> shouldListenTilt s = true.
Proof.
  intros Hm He. unfold shouldListenTilt. rewrite He, (isRunning_true s Hm).
  reflexivity.
Qed.

(** X22: after an action at [tiltLastActionAt], samples arriving less than
    700 ms later emit nothing, whatever their angles and however many
    there are. *)
Lemma tilt_quiet_period :
  forall (samples : list (Q * Z)) (s : State),
    shouldListenTilt s = true ->
    Forall (fun bt => snd bt - tiltLastActionAt s < 700) samples ->
    Forall (fun a => a = None) (snd (tiltTrace samples s)).
Proof.
  induction samples as [|[beta now] rest IH]; intros s Hl Hall.
  - constructor.
  - inversion Hall as [|? ? Hnow Hrest]; subst. cbn [snd] in Hnow.
    cbn [tiltTrace].
    destruct (onDeviceOrientation (Some beta) now s) as [s1 a] eqn:E1.
    destruct (tiltTrace rest s1) as [s2 acts] eqn:E2. cbn [snd].
    assert (Hstep : a = None /\ tiltLastActionAt s1 = tiltLastActionAt s /\
                    shouldListenTilt s1 = true).
    { pose proof (listening_calibrated s beta Hl) as Hl'.
      destruct (calibrate_frame s beta) as (_ & _ & _ & Hlast & _).
      destruct (tiltArmed s) eqn:Ha.
      - rewrite (tilt_debounced s beta now Hl Ha Hnow) in E1.
        inversion E1; subst. auto.
      - destruct (tilt_disarmed_silent s beta now Hl Ha) as [Hn Hk].
        rewrite E1 in Hn, Hk. cbn [fst snd] in Hn, Hk.
        repeat split; try assumption.
        revert E1. unfold onDeviceOrientation. rewrite Hl. cbn [negb].
        destruct (calibrate_frame s beta) as (_ & _ & Harm & _).
        rewrite Harm, Ha. cbn [negb].
        destruct (Qle_bool _ _); intros E1; inversion E1; subst; exact Hl'. }
    destruct Hstep as (-> & Hlast & Hl1).
    constructor; [reflexivity|].
    specialize (IH s1 Hl1). rewrite E2 in IH. cbn [snd] in IH.
    apply IH. rewrite Hlast. exact Hrest.
Qed.







(** C3 (as the code has it): the latch starts every round armed, so in the
    sequence baseline, +25, +0, +20 the recogniser emits [Got] on the +25
    sample, the first excursion; the +0 sample re-arms it and emits
    nothing; the +20 sample emits a second [Got] exactly when it arrives
    700 ms or more after the first one. *)
Theorem tilt_first_excursion_fires :
  forall (s0 : State) (b : Q) (t0 t1 t2 t3 : Z),
    mode s0 = Running -> tiltEnabled s0 = true -> 700 <= t1 ->
    snd (tiltTrace [(b, t0); ((b + 25)%Q, t1); ((b + 0)%Q, t2); ((b + 20)%Q, t3)]
           (onRoundStartResetTiltState s0)) =
    [None; Some Got; None; if t3 - t1 <? 700 then None else Some Got].
Proof.
  intros s0 b t0 t1 t2 t3 Hm He Ht1.
  set (s := onRoundStartResetTiltState s0).
  assert (Hl : shouldListenTilt s = true) by (apply listening_intro; assumption).
  set (sa := set_tiltHasBaseline true (set_tiltNeutralBeta b s)).
  assert (Hca : calibrateBaseline b s = sa) by reflexivity.
  assert (Ea : onDeviceOrientation (Some b) t0 s = (sa, None)).
  { destruct (Z.lt_ge_cases (t0 - tiltLastActionAt s) 700) as [Hq | Hq].
    - rewrite (tilt_debounced s b t0 Hl eq_refl Hq). reflexivity.
    - rewrite (tilt_idle s b t0 Hl eq_refl); rewrite ?Hca;
        [reflexivity | |]; subst sa; fields; lra. }
  assert (Hla : shouldListenTilt sa = true) by exact Hl.
  assert (Hcb : calibrateBaseline (b + 25) sa = sa).
  { apply calibrate_far; [reflexivity|]. apply Qabs_above.
    subst sa. fields. lra. }
  set (sb := set_tiltLastActionAt t1 (set_tiltArmed false sa)).
  assert (Eb : onDeviceOrientation (Some (b + 25)%Q) t1 sa = (sb, Some Got)).
  { rewrite (tilt_fire_got sa (b + 25) t1 Hla eq_refl); rewrite ?Hcb;
      [reflexivity | | ]; subst sa s; fields; [lia | lra]. }
  assert (Hlb : shouldListenTilt sb = true) by exact Hl.
  set (nb := (b + (b + 0 - b) * TILT.baselineSmoothing)%Q).
  assert (Hcc : calibrateBaseline (b + 0) sb = set_tiltNeutralBeta nb sb).
  { apply (calibrate_near sb (b + 0)); [reflexivity|].
    subst sb sa. fields. apply Qabs_within; lra. }
  set (sc := set_tiltArmed true (set_tiltNeutralBeta nb sb)).
  assert (Ec : onDeviceOrientation (Some (b + 0)%Q) t2 sb = (sc, None)).
  { rewrite (tilt_rearm sb (b + 0) t2 Hlb); rewrite ?Hcc;
      [reflexivity | reflexivity |].
    fields. subst nb. unfold TILT.baselineSmoothing.
    apply Qabs_within; lra. }
  assert (Hlc : shouldListenTilt sc = true) by exact Hl.
  assert (Hcd : calibrateBaseline (b + 20) sc = sc).
  { apply calibrate_far; [reflexivity|]. apply Qabs_above.
    subst sc nb. fields. unfold TILT.baselineSmoothing. lra. }
  cbn [tiltTrace]. rewrite Ea, Eb, Ec.
  destruct (Z.ltb_spec (t3 - t1) 700) as [Hq | Hq].
  - rewrite (tilt_debounced sc (b + 20) t3 Hlc eq_refl) by exact Hq.
    reflexivity.
  - rewrite (tilt_fire_got sc (b + 20) t3 Hlc eq_refl); rewrite ?Hcd;
      [reflexivity | exact Hq |].
    subst sc nb. fields. unfold TILT.baselineSmoothing. lra.
Qed.

Lemma tilt_first_excursion_fires_witness :
  snd (tiltTrace [(3%Q, 1000); ((3 + 25)%Q, 2000); ((3 + 0)%Q, 3000);
                    ((3 + 20)%Q, 4000)]
         (onRoundStartResetTiltState sampleTiltState)) =
  [None; Some Got; None; Some Got].
Proof.
  apply (tilt_first_excursion_fires sampleTiltState 3 1000 2000 3000 4000
           eq_refl eq_refl).
  lia.
Defined.

(** C3, the claim as written fails: the first excursion already emits
    [Got], and with the samples a second apart the last one emits again. *)
Lemma tilt_fires_on_first_excursion :
  snd (tiltTrace firstExcursionSamples
         (onRoundStartResetTiltState sampleTiltState)) =
    [None; Some Got; None; Some Got] /\
  snd (tiltTrace firstExcursionSamples
         (onRoundStartResetTiltState sampleTiltState)) <>
    [None; None; None; Some Got].
Proof. split; [vm_compute; reflexivity | vm_compute; discriminate]. Qed.

(** ** Round timer *)

Ltac decide_leb :=
  repeat match goal with
  | |- context [Z.leb ?a ?b] =>
      first [ replace (Z.leb a b) with true by (symmetry; apply Z.leb_le; lia)
            | replace (Z.leb a b) with false by (symmetry; apply Z.leb_gt; lia) ]
  end.

Lemma stopTimer_stopped (s : State) : timerId (stopTimer s) = None.
Proof. unfold stopTimer. destruct (timerId s) eqn:E; [reflexivity | exact E]. Qed.

Lemma stopTimer_idle (s : State) : timerId s = None -> stopTimer s = s.
Proof. unfold stopTimer. intros ->. reflexivity. Qed.

Lemma stopTimer_idempotent (s : State) : stopTimer (stopTimer s) = stopTimer s.
Proof. apply stopTimer_idle, stopTimer_stopped. Qed.

Lemma endRound_stops_timer (reason : string) (now : Z) (w : World) :
  timerId (St (endRound reason now w)) = None.
Proof.
  unfold endRound, setTimeout, disableTiltListener. fields.
  destruct (tiltListenerAttached _); fields; apply stopTimer_stopped.
Qed.

Lemma timerTick_cleared (now : Z) (w : World) :
  timerId (St w) = None -> timerTick now w = w.
Proof. unfold timerTick. intros ->. reflexivity. Qed.

Lemma ticks_cleared (later : list Z) (w : World) :
  timerId (St w) = None -> run (map (fun t => (t, Tick)) later) w = w.
Proof.
  induction later as [|t later IH]; intros H; [reflexivity|].
  cbn [map run handle]. rewrite (timerTick_cleared t w H). apply IH, H.
Qed.

(** C9: every poll recomputes the remaining time from the wall-clock start
    instant; the poll at which it reaches 0 calls [endRound] once and
    clears the interval, so that later polls do nothing; [stopTimer] is
    idempotent and the identity on a stopped timer. *)
Theorem timer_wall_clock :
  forall (w : World) (startedAt now : Z) (later : list Z),
    timerId (St w) = Some startedAt ->
    let left := Z.max 0 (timerSeconds (St w) - (now - startedAt) / 1000) in
    let w' := timerTick now w in
    timerId (startTimer startedAt (St w)) = Some startedAt /\
    timeLeft (St w') = left /\
    (0 < left -> w' = with_St (set_timeLeft left (St w)) w) /\
    (left = 0 ->
       w' = endRound timeIsUp now (with_St (set_timeLeft 0 (St w)) w) /\
       timerId (St w') = None /\
       run (map (fun t => (t, Tick)) later) w' = w') /\
    (forall s : State,
       stopTimer (stopTimer s) = stopTimer s /\
       timerId (stopTimer s) = None /\
       (timerId s = None -> stopTimer s = s)).
Proof.
  intros w startedAt now later Hid left w'.
  assert (Hw : w' = if left <=? 0
                    then endRound timeIsUp now
                           (with_St (set_timeLeft left (St w)) w)
                    else with_St (set_timeLeft left (St w)) w).
  { subst w'. unfold timerTick. rewrite Hid. reflexivity. }
  assert (Hleft : 0 <= left) by (subst left; lia).
  assert (Hstop : forall s : State,
             stopTimer (stopTimer s) = stopTimer s /\
             timerId (stopTimer s) = None /\
             (timerId s = None -> stopTimer s = s)).
  { intros s. split; [apply stopTimer_idempotent|].
    split; [apply stopTimer_stopped | apply stopTimer_idle]. }
  split; [reflexivity|].
  destruct (Z.leb_spec left 0) as [Hz | Hpos].
  - assert (left = 0) as H0 by lia.
    assert (Hnone : timerId (St w') = None)
      by (rewrite Hw; apply endRound_stops_timer).
    split; [|split; [|split]]; [| | |exact Hstop].
    + rewrite Hw, H0. unfold endRound, setTimeout, disableTiltListener.
      fields. destruct (tiltListenerAttached _); fields;
        unfold stopTimer; fields; rewrite Hid; reflexivity.
    + lia.
    + intros _. rewrite Hw, H0 in *. repeat split.
      * exact Hnone.
      * apply ticks_cleared, Hnone.
  - split; [|split; [|split]]; [| | |exact Hstop].
    + rewrite Hw. reflexivity.
    + intros _. exact Hw.
    + lia.
Qed.

Lemma timer_wall_clock_witness :
  timeLeft (St (timerTick 43500 sampleRound)) = 18 /\
  timerTick 61250 sampleRound =
    endRound timeIsUp 61250 (with_St (set_timeLeft 0 (St sampleRound)) sampleRound).
Proof.
  split.
  - destruct (timer_wall_clock sampleRound 1000 43500 [] eq_refl)
      as (_ & H & _). exact H.
  - destruct (timer_wall_clock sampleRound 1000 61250 [] eq_refl)
      as (_ & _ & _ & H & _). apply H. reflexivity.
Defined.

(** ** Round controller *)

(** C8: with no phrases [startRound] raises its validation alert and
    returns early, the whole program state (mode included) untouched;
    with at least one phrase it raises none. *)
Theorem startRound_empty_deck :
  forall (rnd : nat -> nat) (needsPermission : bool) (now : Z) (w : World),
    startRound [] rnd needsPermission now w = (w, ValidationError noPhrases) /\
    (forall (p : Phrase) (ps : list Phrase),
        snd (startRound (p :: ps) rnd needsPermission now w) = RoundStarted).
Proof. intros rnd np now w. split; [reflexivity | intros p ps; reflexivity]. Qed.

(** C10: in a running round with looping on and a non-empty deck, a call
    that finds no current entry only resets [index] to 0: the counters,
    the mode and the pending timeouts stay as they were, and the action
    is not scored. *)
Theorem advance_boundary_wraps :
  forall (w : World) (action : Action) (now : Z),
    mode (St w) = Running ->
    (length (deck (St w)) <= index (St w))%nat ->
    loopWhenFinished (St w) = true ->
    deck (St w) <> [] ->
    let w' := advance action now w in
    w' = with_St (set_index 0%nat (St w)) w /\
    index (St w') = 0%nat /\
    shown (St w') = shown (St w) /\
    got (St w') = got (St w) /\
    pass (St w') = pass (St w) /\
    mode (St w') = Running.
Proof.
  intros w action now Hm Hidx Hloop Hdeck w'.
  assert (Hw : w' = with_St (set_index 0%nat (St w)) w).
  { subst w'. unfold advance. rewrite (isRunning_true _ Hm). cbn [negb].
    apply nth_error_None in Hidx. rewrite Hidx.
    unfold canLoop. rewrite Hloop.
    destruct (deck (St w)) as [|p ps]; [congruence | reflexivity]. }
  rewrite Hw. fields. repeat split; try reflexivity. exact Hm.
Qed.

Lemma advance_boundary_wraps_witness :
  index (St sampleBoundary) = 3%nat /\
  advance Pass 1350 sampleBoundary =
    with_St (set_index 0%nat (St sampleBoundary)) sampleBoundary.
Proof.
  split; [reflexivity|].
  apply (advance_boundary_wraps sampleBoundary Pass 1350).
  - reflexivity.
  - vm_compute. lia.
  - reflexivity.
  - discriminate.
Defined.


(** Evaluate one call of the controller on a state whose shape is known. *)
Ltac eval_call t :=
  let v := eval cbv beta iota zeta delta
      [advance advanceDone setTimeout isRunning schedule runDue fireTimeout
       runTask roundFinish endRound stopTimer disableTiltListener canLoop
       renderResults setScreen
       mode phrasesOriginal deck index shown got pass timerSeconds timeLeft
       timerId shuffleOnStart loopWhenFinished vibrateOnAction tiltEnabled
       tiltPermissionGranted tiltListenerAttached tiltLastActionAt tiltArmed
       tiltNeutralBeta tiltHasBaseline
       set_mode set_phrasesOriginal set_deck set_index set_shown set_got
       set_pass set_timeLeft set_timerId set_tiltListenerAttached
       set_tiltLastActionAt set_tiltArmed set_tiltNeutralBeta
       set_tiltHasBaseline
       St Sw timeouts results with_St with_Sw with_timeouts with_results
       nth_error length Nat.leb Nat.ltb negb andb Nat.iter nat_rect Nat.sub
       Nat.add fst snd app] in t in
  change t with v; decide_leb; cbv beta iota.

Ltac eval_lhs := match goal with |- ?t = _ => eval_call t end.

(** Run the next timeout of an explicitly known world. *)
Ltac fire_step now :=
  match goal with
  | |- context [fireTimeout now
                  {| St := ?s; Sw := ?a; timeouts := ?q; results := ?r |}] =>
      eval_call
        (fireTimeout now {| St := s; Sw := a; timeouts := q; results := r |})
  end.

(** C2 (as the code has it): three scored advances on a three-phrase deck
    without looping.  The index goes 0, 1, 2, 3 and the third call itself
    finds the index at the deck length (its callback carries
    [atEnd = true]), but the transition is deferred: when the third call
    returns the round is still running.  With no further call to [advance]
    and no other timeout pending, the 420 ms feedback callback calls
    [endRound], and once its 250 ms delay has elapsed as well the round is
    finished with reason "Reached the end of the list" and 3 phrases
    shown. *)
Theorem advance_three_reaches_end :
  forall (w : World) (p1 p2 p3 : Phrase) (t1 t2 t3 t4 t5 : Z),
    mode (St w) = Running ->
    deck (St w) = [p1; p2; p3] ->
    index (St w) = 0%nat -> shown (St w) = 0%nat ->
    loopWhenFinished (St w) = false ->
    timeouts w = [] ->
    t1 <= t2 -> t2 <= t3 -> t3 + 420 <= t4 -> t4 + 250 <= t5 ->
    let w1 := advance Got t1 w in
    let w2 := advance Got t2 w1 in
    let w3 := advance Got t3 w2 in
    let w5 := runDue t5 (runDue t4 w3) in
    index (St w1) = 1%nat /\ index (St w2) = 2%nat /\ index (St w3) = 3%nat /\
    shown (St w3) = 3%nat /\ mode (St w3) = Running /\
    timeouts w3 = [(t1 + 420, AdvanceDone false); (t2 + 420, AdvanceDone false);
                   (t3 + 420, AdvanceDone true)] /\
    mode (St w5) = Finished /\
    results w5 =
      Some {| statTotal := 3; statGot := 3 + got (St w);
              statPass := pass (St w); detailsReason := reachedEnd;
              detailsTotal := 3; detailsRemaining := 0 |} /\
    index (St w5) = 3%nat /\ shown (St w5) = 3%nat.
Proof.
  intros [s sw q r] p1 p2 p3 t1 t2 t3 t4 t5.
  destruct s. intros Hm Hd Hi Hs Hl Hq.
  cbv [St timeouts mode deck index shown loopWhenFinished]
    in Hm, Hd, Hi, Hs, Hl, Hq.
  subst. intros H12 H23 H34 H45 w1 w2 w3.
  eassert (E1 : w1 = _) by (subst w1; eval_lhs; reflexivity).
  clearbody w1. subst w1.
  eassert (E2 : w2 = _) by (subst w2; eval_lhs; reflexivity).
  clearbody w2. subst w2.
  eassert (E3 : w3 = _) by (subst w3; eval_lhs; reflexivity).
  clearbody w3. subst w3.
  set (w4 := runDue t4 _). intros w5.
  destruct timerId0, tiltListenerAttached0;
    (eassert (E4 : w4 = _);
     [ subst w4; unfold runDue; cbn [timeouts length Nat.iter nat_rect];
       do 3 fire_step t4; reflexivity
     | clearbody w4; subst w4;
       eassert (E5 : w5 = _);
       [ subst w5; unfold runDue; cbn [timeouts length Nat.iter nat_rect];
         fire_step t5; reflexivity
       | clearbody w5; subst w5; repeat split; reflexivity ] ]).
Qed.

Lemma advance_three_reaches_end_witness :
  mode (St (runDue 2000 (runDue 1720
     (advance Got 1300 (advance Got 1200 (advance Got 1100 sampleRound))))))
  = Finished.
Proof.
  assert (H12 : 1100 <= 1200) by lia.
  assert (H23 : 1200 <= 1300) by lia.
  assert (H34 : 1300 + 420 <= 1720) by lia.
  assert (H45 : 1720 + 250 <= 2000) by lia.
  pose proof (advance_three_reaches_end sampleRound
                (mkPhrase "Popcorn") (mkPhrase "Snow day")
                (mkPhrase "The moon") 1100 1200 1300 1720 2000
                eq_refl eq_refl eq_refl eq_refl eq_refl eq_refl
                H12 H23 H34 H45) as H.
  exact (proj1 (proj2 (proj2 (proj2 (proj2 (proj2 (proj2 H))))))).
Defined.

(** C2, the claim as written fails: on the three-phrase sample round the
    third call returns with the index at 3 and the round still running,
    no results rendered; nothing is finished until the timeouts fire. *)
Lemma advance_third_call_still_running :
  length (deck (St sampleRound)) = 3%nat /\
  loopWhenFinished (St sampleRound) = false /\
  index (St sampleRound) = 0%nat /\
  index (St sampleThreeAdvances) = 3%nat /\
  shown (St sampleThreeAdvances) = 3%nat /\
  mode (St sampleThreeAdvances) = Running /\
  mode (St sampleThreeAdvances) <> Finished /\
  results sampleThreeAdvances = None.
Proof. repeat split; try reflexivity. discriminate. Qed.

(** C1 (as the code has it): [endRound] has no test of the mode.  In every
    mode the call itself leaves the mode, deck, index, counters and results
    panel as they are, clears the timer and the tilt listener, and defers
    by 250 ms a step that sets the mode to [Finished] and renders the
    results from the counters with the given reason.  A second call with
    the same reason right after the first adds nothing: once the deferred
    steps have run, state and results are those of a single call. *)
Theorem endRound_any_mode :
  forall (w : World) (reason : string) (t1 t2 t : Z),
    timeouts w = [] -> t1 <= t2 -> t2 + 250 <= t ->
    let w1 := endRound reason t1 w in
    let once := runDue t w1 in
    let twice := runDue t (endRound reason t2 w1) in
    (mode (St w1) = mode (St w) /\ deck (St w1) = deck (St w) /\
     index (St w1) = index (St w) /\ shown (St w1) = shown (St w) /\
     got (St w1) = got (St w) /\ pass (St w1) = pass (St w) /\
     results w1 = results w /\
     timerId (St w1) = None /\ tiltListenerAttached (St w1) = false /\
     timeouts w1 = [(t1 + 250, RoundFinish reason)]) /\
    (mode (St once) = Finished /\
     results once = Some (renderResults reason (St w))) /\
    (St twice = St once /\ results twice = results once /\
     timeouts twice = timeouts once).
Proof.
  intros [s sw q r] reason t1 t2 t Hq H12 H2t.
  cbv [timeouts] in Hq. subst q. destruct s.
  intros w1 once twice.
  destruct timerId0, tiltListenerAttached0;
    (eassert (E1 : w1 = _) by (subst w1; eval_lhs; reflexivity);
     clearbody w1; subst w1;
     eassert (E2 : once = _)
       by (subst once; unfold runDue; cbn [timeouts length Nat.iter nat_rect];
           fire_step t; reflexivity);
     clearbody once; subst once;
     eassert (E3 : twice = _)
       by (subst twice;
           match goal with |- context [endRound reason t2 ?x] =>
             eval_call (endRound reason t2 x) end;
           unfold runDue; cbn [timeouts length Nat.iter nat_rect];
           do 2 fire_step t; reflexivity);
     clearbody twice; subst twice;
     repeat split; reflexivity).
Qed.

Lemma endRound_any_mode_witness :
  mode (St (runDue 1400 (endRound endedEarly 1100 sampleRound))) = Finished.
Proof.
  assert (H12 : 1100 <= 1150) by lia.
  assert (H2t : 1150 + 250 <= 1400) by lia.
  pose proof (endRound_any_mode sampleRound endedEarly 1100 1150 1400
                eq_refl H12 H2t) as H.
  exact (proj1 (proj1 (proj2 H))).
Defined.

(** C1, the claim as written fails.  From [Setup] the call ends in
    [Finished] with a results panel; from [Finished] a call with another
    reason replaces the reason shown. *)
Lemma endRound_outside_running_not_noop :
  mode (St World0) = Setup /\
  mode (St setupEnded) = Finished /\
  results World0 = None /\ results setupEnded <> None /\
  mode (St sampleFinished) = Finished /\
  mode (St sampleReEnded) = Finished /\
  results sampleReEnded <> results sampleFinished.
Proof.
  repeat split; try reflexivity; vm_compute; discriminate.
Qed.

Lemma roundReset_stopTimer (s : State) : roundReset s -> roundReset (stopTimer s).
Proof. unfold stopTimer. destruct (timerId s); intros H; exact H. Qed.

Lemma roundReset_disableTiltListener (s : State) :
  roundReset s -> roundReset (disableTiltListener s).
Proof.
  unfold disableTiltListener. destruct (tiltListenerAttached s); intros H; exact H.
Qed.

Lemma roundReset_endRound (reason : string) (now : Z) (w : World) :
  roundReset (St w) -> roundReset (St (endRound reason now w)).
Proof.
  intros H. unfold endRound, setTimeout. fields.
  apply roundReset_disableTiltListener, roundReset_stopTimer, H.
Qed.

Lemma roundReset_runTask (t : Task) (now : Z) (w : World) :
  roundReset (St w) -> roundReset (St (runTask t now w)).
Proof.
  intros H. destruct t as [atEnd | reason]; cbn [runTask].
  - unfold advanceDone. destruct atEnd; [|exact H].
    destruct (canLoop (St w)).
    + fields. destruct H as (H1 & H2 & H3 & H4 & H5 & H6 & H7).
      repeat split; assumption || reflexivity.
    + apply roundReset_endRound, H.
  - unfold roundFinish. fields. exact H.
Qed.

Lemma roundReset_fireTimeout (now : Z) (w : World) :
  roundReset (St w) -> roundReset (St (fireTimeout now w)).
Proof.
  intros H. unfold fireTimeout. destruct (timeouts w) as [|[due t] q]; [exact H|].
  destruct (due <=? now); [|exact H].
  apply roundReset_runTask. exact H.
Qed.

Lemma roundReset_runDue (now : Z) (w : World) :
  roundReset (St w) -> roundReset (St (runDue now w)).
Proof.
  intros H. unfold runDue. generalize (length (timeouts w)) as n.
  induction n as [|n IH]; [exact H|].
  cbn [Nat.iter nat_rect]. apply roundReset_fireTimeout, IH.
Qed.

(** C7: whatever happened in the first round and after its end, a second
    [startRound] leaves the tilt calibration cleared, the counters and the
    index at zero and the mode running; timeouts left over from the first
    round do not change any of these values when they fire later. *)
Theorem startRound_round_trip :
  forall (w : World) (phrases : list Phrase) (rnd1 rnd2 : nat -> nat)
         (needsPermission : bool) (t1 t2 t3 now : Z) (reason : string)
         (during after : list (Z * Event)),
    phrases <> [] ->
    let w1 := fst (startRound phrases rnd1 needsPermission t1 w) in
    let w2 := endRound reason t2 (run during w1) in
    let w3 := fst (startRound phrases rnd2 needsPermission t3 (run after w2)) in
    tiltHasBaseline (St w3) = false /\ tiltArmed (St w3) = true /\
    tiltLastActionAt (St w3) = 0 /\
    shown (St w3) = 0%nat /\ got (St w3) = 0%nat /\ pass (St w3) = 0%nat /\
    index (St w3) = 0%nat /\
    mode (St w3) = Running /\
    roundReset (St (runDue now w3)).
Proof.
  intros w phrases rnd1 rnd2 np t1 t2 t3 now reason during after Hne w1 w2 w3.
  assert (H3 : roundReset (St w3) /\ mode (St w3) = Running).
  { subst w3. generalize (run after w2) as v. intros [s sw q r].
    destruct phrases as [|p ps]; [congruence|].
    destruct s. unfold startRound, startTimer, stopTimer,
      maybeEnableTiltDuringGame, attachTiltListener, disableTiltListener.
    cbn [fst]. fields.
    destruct tiltEnabled0, np, tiltPermissionGranted0, tiltListenerAttached0,
      timerId0; cbn [negb andb]; fields; repeat split; reflexivity. }
  destruct H3 as [Hr Hm].
  pose proof (roundReset_runDue now w3 Hr) as Hlate.
  destruct Hr as (H1 & H2 & H3 & H4 & H5 & H6 & H7).
  repeat (split; [assumption|]). exact Hlate.
Qed.

Lemma startRound_round_trip_witness :
  samplePhrases <> [] /\
  roundReset
    (St (fst (startRound samplePhrases noShuffle false 9000
                (run [(1400, Timeouts)]
                   (endRound timeIsUp 1100
                      (run [(1050, Tap Got)] sampleRound)))))).
Proof.
  assert (Hne : samplePhrases <> []) by discriminate.
  split; [exact Hne|].
  pose proof (startRound_round_trip World0 samplePhrases noShuffle noShuffle
                false 1000 1100 9000 9000 timeIsUp [(1050, Tap Got)]
                [(1400, Timeouts)] Hne) as H.
  cbv zeta in H.
  destruct H as (H1 & H2 & H3 & H4 & H5 & H6 & H7 & _).
  repeat split; assumption.
Defined.

(** ** Shuffling and deck construction *)

Lemma assign_swaps_in {A : Type} (a b : A) :
  forall (t : list A) (j : nat),
    nth_error t j = Some b -> Permutation (b :: assign j a t) (a :: t).
Proof.
  induction t as [|h t IH]; intros [|j] H; cbn in H; try discriminate.
  - injection H as ->. cbn. apply perm_swap.
  - cbn [assign]. apply perm_trans with (h :: b :: assign j a t).
    + apply perm_swap.
    + apply perm_trans with (h :: a :: t).
      * apply perm_skip, IH, H.
      * apply perm_swap.
Qed.

Lemma swap_Permutation {A : Type} :
  forall (l : list A) (i j : nat), Permutation (swap i j l) l.
Proof.
  unfold swap. induction l as [|h t IH]; intros i j.
  - destruct i, j; apply Permutation_refl.
  - destruct i as [|i], j as [|j]; cbn [nth_error].
    + cbn. apply Permutation_refl.
    + destruct (nth_error t j) as [b|] eqn:Hj; [|apply Permutation_refl].
      cbn [assign]. apply assign_swaps_in, Hj.
    + destruct (nth_error t i) as [a|] eqn:Hi; [|apply Permutation_refl].
      cbn [assign]. apply assign_swaps_in, Hi.
    + specialize (IH i j).
      destruct (nth_error t i) as [a|]; [|apply Permutation_refl].
      destruct (nth_error t j) as [b|]; [|apply Permutation_refl].
      cbn [assign]. apply perm_skip, IH.
Qed.

Lemma shuffleFrom_Permutation {A : Type} (rnd : nat -> nat) :
  forall (i : nat) (arr : list A), Permutation (shuffleFrom rnd i arr) arr.
Proof.
  induction i as [|i IH]; intros arr; cbn [shuffleFrom].
  - apply Permutation_refl.
  - apply perm_trans with (swap (S i) (rnd (S i) mod (S i + 1))%nat arr).
    + apply IH.
    + apply swap_Permutation.
Qed.

(** X1: whatever the random draws, the Fisher-Yates loop returns a
    rearrangement of its input: every element is kept, with its
    multiplicity, and the length is unchanged. *)
Theorem fisherYatesShuffle_Permutation :
  forall (A : Type) (rnd : nat -> nat) (arr : list A),
    Permutation (fisherYatesShuffle rnd arr) arr /\
    length (fisherYatesShuffle rnd arr) = length arr /\
    (forall x : A, In x (fisherYatesShuffle rnd arr) <-> In x arr).
Proof.
  intros A rnd arr.
  assert (H : Permutation (fisherYatesShuffle rnd arr) arr)
    by apply shuffleFrom_Permutation.
  split; [exact H|]. split.
  - apply Permutation_length, H.
  - intros x. split; apply Permutation_in; [exact H | apply Permutation_sym, H].
Qed.

Lemma copy_phrases (phrases : list Phrase) :
  map (fun p => {| phrase := phrase p; hint := hint p |}) phrases = phrases.
Proof.
  induction phrases as [|[p h] ps IH]; [reflexivity|].
  cbn [map phrase hint]. rewrite IH. reflexivity.
Qed.

Lemma buildDeck_Permutation (rnd : nat -> nat) (phrases : list Phrase)
    (s : State) : Permutation (buildDeck rnd phrases s) phrases.
Proof.
  unfold buildDeck. rewrite copy_phrases.
  destruct (shuffleOnStart s); [|apply Permutation_refl].
  apply shuffleFrom_Permutation.
Qed.

(** X2: a successful [startRound] puts the page in [Running] with a deck
    that is a rearrangement of the given phrases (the phrases themselves
    when shuffling is off), the clock at the full duration and a fresh
    timer; the options, the pending timeouts and the results panel are
    left as they were. *)
Theorem startRound_started :
  forall (p : Phrase) (ps : list Phrase) (rnd : nat -> nat)
         (needsPermission : bool) (now : Z) (w : World),
    let w' := fst (startRound (p :: ps) rnd needsPermission now w) in
    mode (St w') = Running /\
    Permutation (deck (St w')) (p :: ps) /\
    (shuffleOnStart (St w) = false -> deck (St w') = p :: ps) /\
    phrasesOriginal (St w') = p :: ps /\
    timeLeft (St w') = timerSeconds (St w) /\
    timerId (St w') = Some now /\
    timerSeconds (St w') = timerSeconds (St w) /\
    loopWhenFinished (St w') = loopWhenFinished (St w) /\
    shuffleOnStart (St w') = shuffleOnStart (St w) /\
    tiltEnabled (St w') = tiltEnabled (St w) /\
    timeouts w' = timeouts w /\ results w' = results w /\ Sw w' = Sw w.
Proof.
  intros p ps rnd np now [s sw q r] w'.
  assert (Hdeck : deck (St w') = buildDeck rnd (p :: ps) s).
  { subst w'. destruct s.
    unfold startRound, startTimer, stopTimer, maybeEnableTiltDuringGame,
      attachTiltListener, disableTiltListener. cbn [fst]. fields.
    destruct tiltEnabled0, np, tiltPermissionGranted0, tiltListenerAttached0,
      timerId0; cbn [negb andb]; fields; reflexivity. }
  split; [|split; [|split]].
  - subst w'. destruct s.
    unfold startRound, startTimer, stopTimer, maybeEnableTiltDuringGame,
      attachTiltListener, disableTiltListener. cbn [fst]. fields.
    destruct tiltEnabled0, np, tiltPermissionGranted0, tiltListenerAttached0,
      timerId0; cbn [negb andb]; fields; reflexivity.
  - rewrite Hdeck. apply buildDeck_Permutation.
  - intros Hs. rewrite Hdeck. unfold buildDeck. fields. rewrite Hs.
    apply copy_phrases.
  - subst w'. destruct s.
    unfold startRound, startTimer, stopTimer, maybeEnableTiltDuringGame,
      attachTiltListener, disableTiltListener. cbn [fst]. fields.
    destruct tiltEnabled0, np, tiltPermissionGranted0, tiltListenerAttached0,
      timerId0; cbn [negb andb]; fields; repeat split; reflexivity.
Qed.

(** ** Setup options *)

(** X3: [clamp] returns its argument when it lies between the bounds and
    the nearer bound otherwise, so the timer setting that
    [syncOptionsFromUI] stores is always between 10 and 600 seconds, and 60
    when the field holds no finite number; the round in progress (mode,
    deck, position, counters, tilt calibration) is not touched. *)
Theorem syncOptionsFromUI_timer_range :
  forall (ui : SetupForm) (s : State),
    let s' := syncOptionsFromUI ui s in
    10 <= timerSeconds s' <= 600 /\
    (forall n, timerValue ui = Some n ->
       timerSeconds s' =
         (if n <? 10 then 10 else if 600 <? n then 600 else n)) /\
    (timerValue ui = None -> timerSeconds s' = 60) /\
    mode s' = mode s /\ deck s' = deck s /\ index s' = index s /\
    shown s' = shown s /\ got s' = got s /\ pass s' = pass s /\
    timeLeft s' = timeLeft s /\ timerId s' = timerId s /\
    tiltArmed s' = tiltArmed s /\ tiltHasBaseline s' = tiltHasBaseline s /\
    tiltLastActionAt s' = tiltLastActionAt s.
Proof.
  intros ui s s'. subst s'. unfold syncOptionsFromUI, clamp. fields.
  split; [|split; [|split]].
  - destruct (timerValue ui); lia.
  - intros n ->. destruct (Z.ltb_spec n 10), (Z.ltb_spec 600 n); lia.
  - intros ->. reflexivity.
  - repeat split; reflexivity.
Qed.

Lemma syncOptionsFromUI_timer_range_witness :
  timerSeconds (syncOptionsFromUI sampleForm State0) = 600.
Proof.
  destruct (syncOptionsFromUI_timer_range sampleForm State0) as (_ & H & _).
  apply (H 4000). reflexivity.
Defined.

(** X4: the play-again button starts a round on a shuffled deck even when
    the shuffle preference is off, and leaves the preference as it was;
    with no phrases it changes nothing at all. *)
Theorem playAgain_keeps_preference :
  forall (p : Phrase) (ps : list Phrase) (rnd : nat -> nat)
         (needsPermission : bool) (now : Z) (w : World),
    let w' := fst (playAgain (p :: ps) rnd needsPermission now w) in
    shuffleOnStart (St w') = shuffleOnStart (St w) /\
    deck (St w') = fisherYatesShuffle rnd (p :: ps) /\
    mode (St w') = Running /\
    playAgain [] rnd needsPermission now w = (w, ValidationError noPhrases).
Proof.
  intros p ps rnd np now [s sw q r] w'. subst w'. destruct s.
  unfold playAgain, startRound, startTimer, stopTimer,
    maybeEnableTiltDuringGame, attachTiltListener, disableTiltListener,
    buildDeck.
  cbn [fst]. fields. rewrite copy_phrases.
  destruct tiltEnabled0, np, tiltPermissionGranted0, tiltListenerAttached0,
    timerId0; cbn [negb andb fst]; fields; repeat split; reflexivity.
Qed.

(** ** Scoring and the end of the deck *)

Lemma advance_entry (action : Action) (now : Z) (w : World) (p : Phrase) :
  mode (St w) = Running ->
  nth_error (deck (St w)) (index (St w)) = Some p ->
  advance action now w =
    setTimeout
      (AdvanceDone (length (deck (St w)) <=? S (index (St w)))%nat) 420 now
      (with_St (scored action (St w)) w).
Proof.
  intros Hm Hp. unfold advance. rewrite (isRunning_true _ Hm), Hp.
  cbn [negb]. unfold scored. destruct action; reflexivity.
Qed.

(** X5: in a running round with a current entry, every action counts the
    entry as shown and moves on by exactly one; [Got] and [Pass] add one to
    their own counter only and [Next] to neither.  Whether the deck is
    used up is decided in the same call and handed to the feedback
    callback scheduled 420 ms later. *)
Theorem advance_scores :
  forall (w : World) (action : Action) (now : Z) (p : Phrase),
    mode (St w) = Running ->
    nth_error (deck (St w)) (index (St w)) = Some p ->
    let w' := advance action now w in
    index (St w') = S (index (St w)) /\
    shown (St w') = S (shown (St w)) /\
    got (St w') =
      (match action with Got => S (got (St w)) | _ => got (St w) end) /\
    pass (St w') =
      (match action with Pass => S (pass (St w)) | _ => pass (St w) end) /\
    mode (St w') = Running /\ deck (St w') = deck (St w) /\
    timeouts w' =
      schedule (now + 420)
        (AdvanceDone (length (deck (St w)) <=? S (index (St w)))%nat)
        (timeouts w).
Proof.
  intros w action now p Hm Hp w'. subst w'.
  rewrite (advance_entry action now w p Hm Hp).
  unfold setTimeout, scored. fields.
  destruct action; fields; repeat split; try reflexivity; exact Hm.
Qed.

Lemma advance_scores_witness :
  got (St (advance Got 1100 sampleRound)) = 1%nat /\
  pass (St (advance Got 1100 sampleRound)) = 0%nat.
Proof.
  destruct (advance_scores sampleRound Got 1100 (mkPhrase "Popcorn")
              eq_refl eq_refl) as (_ & _ & Hg & Hp & _).
  split; [exact Hg | exact Hp].
Defined.

Lemma canLoop_scored (action : Action) (s : State) :
  canLoop (scored action s) = canLoop s.
Proof. unfold canLoop, scored. destruct action; reflexivity. Qed.

(** X6: the last entry of the deck with looping off.  The call scores it
    and leaves the round running; the feedback callback then calls
    [endRound], and 250 ms later the round is finished and the results
    panel shows the counters including that last entry, with the reason
    "Reached the end of the list". *)
Theorem advance_last_entry_ends :
  forall (w : World) (action : Action) (p : Phrase) (t1 t4 t5 : Z),
    mode (St w) = Running ->
    nth_error (deck (St w)) (index (St w)) = Some p ->
    S (index (St w)) = length (deck (St w)) ->
    loopWhenFinished (St w) = false ->
    timeouts w = [] ->
    t1 + 420 <= t4 -> t4 + 250 <= t5 ->
    let w1 := advance action t1 w in
    let w4 := runDue t4 w1 in
    let w5 := runDue t5 w4 in
    mode (St w1) = Running /\
    mode (St w4) = Running /\ timerId (St w4) = None /\
    tiltListenerAttached (St w4) = false /\
    mode (St w5) = Finished /\
    results w5 = Some (renderResults reachedEnd (scored action (St w))) /\
    timeouts w5 = [].
Proof.
  intros [s sw q r] action p t1 t4 t5 Hm Hp Hlast Hloop Hq H14 H45 w1.
  cbv [timeouts] in Hq. subst q.
  assert (E1 : w1 = {| St := scored action s; Sw := sw;
                       timeouts := [(t1 + 420, AdvanceDone true)];
                       results := r |}).
  { subst w1. rewrite (advance_entry action t1 _ p Hm Hp).
    unfold setTimeout. fields. fields. cbn [schedule].
    cbv [St] in Hlast. rewrite Hlast, Nat.leb_refl. reflexivity. }
  clearbody w1. subst w1. intros w4.
  assert (Hc : canLoop (scored action s) = false).
  { rewrite canLoop_scored. unfold canLoop. cbv [St] in Hloop.
    rewrite Hloop. reflexivity. }
  assert (E4 : w4 = {| St := disableTiltListener (stopTimer (scored action s));
                       Sw := sw;
                       timeouts := [(t4 + 250, RoundFinish reachedEnd)];
                       results := r |}).
  { subst w4. unfold runDue. cbn [timeouts length Nat.iter nat_rect].
    unfold fireTimeout. cbn [timeouts]. decide_leb.
    cbn [runTask]. unfold advanceDone. fields. rewrite Hc.
    unfold endRound, setTimeout. fields. reflexivity. }
  clearbody w4. subst w4. intros w5.
  assert (E5 : w5 = {| St := setScreen Finished
                               (disableTiltListener
                                  (stopTimer (scored action s)));
                       Sw := sw; timeouts := [];
                       results :=
                         Some (renderResults reachedEnd
                                 (setScreen Finished
                                    (disableTiltListener
                                       (stopTimer (scored action s))))) |}).
  { subst w5. unfold runDue. cbn [timeouts length Nat.iter nat_rect].
    unfold fireTimeout. cbn [timeouts]. decide_leb.
    cbn [runTask]. unfold roundFinish. fields. reflexivity. }
  clearbody w5. subst w5. cbv [St] in Hm. fields.
  assert (Hms : mode (scored action s) = Running)
    by (unfold scored; destruct action; fields; exact Hm).
  unfold renderResults, disableTiltListener, stopTimer.
  destruct (timerId (scored action s)) eqn:Ht;
    fields; rewrite ?Ht;
    destruct (tiltListenerAttached (scored action s)) eqn:Hl;
    fields; rewrite ?Hl, ?Ht; fields;
    repeat split; try reflexivity; try assumption.
Qed.

Lemma advance_last_entry_ends_witness :
  mode (St (runDue 2000 (runDue 1720 (advance Pass 1300 sampleLastEntry)))) =
    Finished.
Proof.
  assert (H14 : 1300 + 420 <= 1720) by lia.
  assert (H45 : 1720 + 250 <= 2000) by lia.
  pose proof (advance_last_entry_ends sampleLastEntry Pass
                (mkPhrase "The moon") 1300 1720 2000
                eq_refl eq_refl eq_refl eq_refl eq_refl H14 H45) as H.
  exact (proj1 (proj2 (proj2 (proj2 (proj2 H))))).
Defined.

(** X7: the last entry of the deck with looping on.  The call scores it;
    when the feedback callback runs, the position goes back to the first
    entry, the round keeps running with its timer and counters, and
    nothing further is scheduled. *)
Theorem advance_last_entry_wraps :
  forall (w : World) (action : Action) (p : Phrase) (t1 t4 : Z),
    mode (St w) = Running ->
    nth_error (deck (St w)) (index (St w)) = Some p ->
    S (index (St w)) = length (deck (St w)) ->
    loopWhenFinished (St w) = true ->
    timeouts w = [] ->
    t1 + 420 <= t4 ->
    let w1 := advance action t1 w in
    let w4 := runDue t4 w1 in
    index (St w1) = length (deck (St w)) /\
    w4 = with_timeouts [] (with_St (set_index 0%nat (scored action (St w))) w) /\
    index (St w4) = 0%nat /\ mode (St w4) = Running /\
    shown (St w4) = S (shown (St w)) /\
    timerId (St w4) = timerId (St w) /\
    nth_error (deck (St w4)) (index (St w4)) <> None.
Proof.
  intros [s sw q r] action p t1 t4 Hm Hp Hlast Hloop Hq H14 w1.
  cbv [timeouts] in Hq. subst q. cbv [St] in Hm, Hp, Hlast, Hloop.
  assert (E1 : w1 = {| St := scored action s; Sw := sw;
                       timeouts := [(t1 + 420, AdvanceDone true)];
                       results := r |}).
  { subst w1.
    rewrite (advance_entry action t1
               {| St := s; Sw := sw; timeouts := []; results := r |}
               p Hm Hp).
    unfold setTimeout. fields. fields. cbn [schedule].
    rewrite Hlast, Nat.leb_refl. reflexivity. }
  clearbody w1. subst w1. intros w4.
  assert (Hne : (0 < length (deck s))%nat) by lia.
  assert (Hc : canLoop (scored action s) = true).
  { rewrite canLoop_scored. unfold canLoop. rewrite Hloop.
    apply Nat.ltb_lt in Hne. rewrite Hne. reflexivity. }
  assert (E4 : w4 = {| St := set_index 0%nat (scored action s); Sw := sw;
                       timeouts := []; results := r |}).
  { subst w4. unfold runDue. cbn [timeouts length Nat.iter nat_rect].
    unfold fireTimeout. cbn [timeouts]. decide_leb.
    cbn [runTask]. unfold advanceDone. fields. rewrite Hc. reflexivity. }
  clearbody w4. subst w4. fields.
  split; [|split; [reflexivity|]].
  - unfold scored. destruct action; fields; exact Hlast.
  - unfold scored. destruct action; fields;
      (repeat split; try reflexivity; try assumption;
       destruct (deck s); [cbn in Hne; lia | discriminate]).
Qed.

Lemma advance_last_entry_wraps_witness :
  index (St (runDue 1720 (advance Got 1300 sampleLastEntryLoop))) = 0%nat.
Proof.
  assert (H14 : 1300 + 420 <= 1720) by lia.
  pose proof (advance_last_entry_wraps sampleLastEntryLoop Got
                (mkPhrase "The moon") 1300 1720
                eq_refl eq_refl eq_refl eq_refl eq_refl H14) as H.
  exact (proj1 (proj2 (proj2 H))).
Defined.

(** ** Input outside a running round *)

Lemma advance_not_running (action : Action) (now : Z) (w : World) :
  mode (St w) <> Running -> advance action now w = w.
Proof.
  intros H. unfold advance. rewrite (isRunning_false _ H). reflexivity.
Qed.

Lemma onDeviceOrientation_not_listening (beta : option Q) (now : Z)
    (s : State) :
  shouldListenTilt s = false -> onDeviceOrientation beta now s = (s, None).
Proof. intros H. unfold onDeviceOrientation. rewrite H. reflexivity. Qed.

Lemma handle_input_not_running (w : World) (now : Z) (e : Event) :
  mode (St w) <> Running -> isInput e = true -> handle now e w = w.
Proof.
  revert w. intros [s sw q r] Hm He. cbv [St] in Hm.
  pose proof (isRunning_false s Hm) as Hr.
  destruct e as [x y | x y | action | | beta | | |]; cbn in He;
    try discriminate; cbn [handle St Sw].
  - unfold swipeStart. rewrite Hr. reflexivity.
  - unfold swipeEnd. rewrite Hr. cbn [negb]. rewrite orb_true_r. reflexivity.
  - apply advance_not_running. exact Hm.
  - destruct (tiltListenerAttached s); [|reflexivity].
    rewrite onDeviceOrientation_not_listening; [reflexivity|].
    unfold shouldListenTilt. rewrite Hr. apply andb_false_r.
Qed.

(** X8: while the mode is not [Running], pointer, tap and orientation
    events change nothing: no gesture is recorded, no action reaches the
    counters, no timeout is scheduled. *)
Theorem input_ignored_outside_round :
  forall (w : World) (now : Z) (e : Event),
    mode (St w) <> Running ->
    isInput e = true ->
    handle now e w = w.
Proof.
  intros w now e Hm He. destruct e; cbn in He; try discriminate;
    apply handle_input_not_running; (exact Hm || reflexivity).
Qed.

Lemma input_ignored_outside_round_witness :
  handle 500 (Tap Got) World0 = World0 /\
  handle 2000 (PointerDown 3 4) sampleFinished = sampleFinished.
Proof.
  split.
  - apply (input_ignored_outside_round World0 500 (Tap Got));
      [discriminate | reflexivity].
  - apply (input_ignored_outside_round sampleFinished 2000 (PointerDown 3 4));
      [discriminate | reflexivity].
Defined.

(** X9: once a round has ended and its deferred step has run, the state is
    at rest: pointer, tap and orientation events, timer polls and timeout
    deliveries, in any number and order, leave it exactly as it is. *)
Theorem finished_round_at_rest :
  forall (w : World) (reason : string) (now t : Z) (events : list (Z * Event)),
    timeouts w = [] -> now + 250 <= t ->
    Forall (fun te => isInput (snd te) = true \/ snd te = Tick \/
                      snd te = Timeouts) events ->
    let done := runDue t (endRound reason now w) in
    mode (St done) = Finished /\ run events done = done.
Proof.
  intros [s sw q r] reason now t events Hq Ht Hev done.
  cbv [timeouts] in Hq. subst q.
  assert (E : done = {| St := setScreen Finished
                                (disableTiltListener (stopTimer s));
                        Sw := sw; timeouts := [];
                        results :=
                          Some (renderResults reason
                                  (setScreen Finished
                                     (disableTiltListener (stopTimer s)))) |}).
  { subst done. unfold endRound, setTimeout, runDue.
    cbv [with_timeouts with_St timeouts St Sw results schedule length
         Nat.iter nat_rect fireTimeout].
    decide_leb.
    cbv [runTask roundFinish with_results with_St timeouts St Sw results].
    reflexivity. }
  clearbody done. subst done. split; [reflexivity|].
  set (fin := {| St := _; Sw := sw; timeouts := []; results := _ |}).
  assert (Hm : mode (St fin) <> Running) by (subst fin; fields; discriminate).
  assert (Hid : timerId (St fin) = None).
  { subst fin. fields. unfold disableTiltListener.
    destruct (tiltListenerAttached _); fields; apply stopTimer_stopped. }
  assert (Hto : timeouts fin = []) by reflexivity.
  clearbody fin.
  induction Hev as [|[now' e] rest He Hrest IH]; [reflexivity|].
  cbn [run]. cbn [snd] in He.
  assert (Hstep : handle now' e fin = fin).
  { destruct He as [He | [-> | ->]].
    - apply handle_input_not_running; assumption.
    - cbn [handle]. apply timerTick_cleared, Hid.
    - cbn [handle]. unfold runDue. rewrite Hto. reflexivity. }
  rewrite Hstep. exact IH.
Qed.

Lemma finished_round_at_rest_witness :
  run [(1500, Tap Got); (1600, Tick); (1700, Orientation (Some 40%Q));
       (1800, Timeouts); (1900, PointerUp 9 9)] sampleFinished
  = sampleFinished.
Proof.
  assert (Ht : 1100 + 250 <= 1400) by lia.
  apply (finished_round_at_rest sampleRound timeIsUp 1100 1400
           [(1500, Tap Got); (1600, Tick); (1700, Orientation (Some 40%Q));
            (1800, Timeouts); (1900, PointerUp 9 9)] eq_refl Ht).
  repeat (apply Forall_cons;
          [ cbn [snd isInput];
            first [ left; reflexivity | right; left; reflexivity
                  | right; right; reflexivity ] | ]).
  apply Forall_nil.
Defined.

(** ** Swipe gestures *)

(** X10: a gesture is consumed by the first end event.  After [swipeEnd]
    has run in a running round, a further end event (the browser reports
    both [touchend] and [pointerup] for one touch) emits nothing and
    leaves the gesture record alone, wherever it lands. *)
Theorem swipeEnd_consumes_gesture :
  forall (s s' : State) (sw : Swipe) (x y x' y' : Q) (now now' : Z),
    mode s = Running ->
    let sw1 := fst (swipeEnd x y now s sw) in
    active sw1 = false /\
    swipeEnd x' y' now' s' sw1 = (sw1, None).
Proof.
  intros s s' sw x y x' y' now now' Hm sw1.
  assert (Ha : active sw1 = false).
  { subst sw1. unfold swipeEnd. rewrite (isRunning_true s Hm).
    cbn [negb]. rewrite orb_false_r.
    destruct (active sw) eqn:E; cbn [negb].
    - destruct (_ && _ && _); reflexivity.
    - exact E. }
  split; [exact Ha|].
  unfold swipeEnd at 1. rewrite Ha. reflexivity.
Qed.

Lemma swipeEnd_consumes_gesture_witness :
  swipeEnd 50 10 1301 (St sampleRound)
    (fst (swipeEnd 50 10 1300 (St sampleRound) secondStart)) =
  (fst (swipeEnd 50 10 1300 (St sampleRound) secondStart), None).
Proof.
  apply (swipeEnd_consumes_gesture (St sampleRound) (St sampleRound)
           secondStart 50 10 50 10 1300 1301).
  reflexivity.
Defined.

(** X11: from pointer events to the score.  In a running round with a
    current entry, a pointer-down followed by a pointer-up at most 800 ms
    later, at least 42 px to the right and at most 80 px off axis, scores
    exactly one [Got]: shown, got and the position go up by one, pass is
    unchanged and the gesture is cleared.  The mirrored gesture to the
    left scores exactly one [Pass]. *)
Theorem swipe_scores_once :
  forall (w : World) (p : Phrase) (x0 y0 x1 y1 : Q) (t0 t1 : Z),
    mode (St w) = Running ->
    nth_error (deck (St w)) (index (St w)) = Some p ->
    t1 - t0 <= 800 -> (Qabs (y1 - y0) <= 80)%Q ->
    let w' := run [(t0, PointerDown x0 y0); (t1, PointerUp x1 y1)] w in
    ((42 <= x1 - x0)%Q ->
       got (St w') = S (got (St w)) /\ pass (St w') = pass (St w) /\
       shown (St w') = S (shown (St w)) /\
       index (St w') = S (index (St w)) /\ active (Sw w') = false) /\
    ((x1 - x0 <= -42)%Q ->
       pass (St w') = S (pass (St w)) /\ got (St w') = got (St w) /\
       shown (St w') = S (shown (St w)) /\
       index (St w') = S (index (St w)) /\ active (Sw w') = false).
Proof.
  intros [s sw q r] p x0 y0 x1 y1 t0 t1 Hm Hp Hdt Hdy w'.
  cbv [St] in Hm, Hp.
  assert (Hrun : isRunning s = true) by (apply isRunning_true, Hm).
  assert (Hw : (42 <= Qabs (x1 - x0))%Q ->
             w' = advance (if Qltb 0 (x1 - x0) then Got else Pass) t1
                    {| St := s;
                       Sw := {| active := false; startX := x0; startY := y0;
                                startT := t0 |};
                       timeouts := q; results := r |}).
  { intros Hfar. subst w'. cbn [run handle St Sw with_Sw].
    unfold swipeEnd, swipeStart. rewrite Hrun.
    cbn [negb orb active startX startY startT].
    unfold SWIPE_MAX_MS, SWIPE_THRESHOLD_PX, SWIPE_MAX_OFF_AXIS.
    rewrite (Qle_bool_true _ _ Hfar), (Qle_bool_true _ _ Hdy).
    decide_leb. reflexivity. }
  set (v := {| St := s;
               Sw := {| active := false; startX := x0; startY := y0;
                        startT := t0 |};
               timeouts := q; results := r |}) in Hw.
  split; intros Hdx.
  - rewrite Hw.
    2:{ apply Qle_trans with (x1 - x0)%Q; [exact Hdx | apply Qle_Qabs]. }
    unfold Qltb. rewrite Qle_bool_false by lra. cbn [negb].
    rewrite (advance_entry Got t1 v p Hm Hp). repeat split; reflexivity.
  - rewrite Hw.
    2:{ apply Qle_trans with (- (x1 - x0))%Q; [lra|].
        rewrite <- Qabs_opp. apply Qle_Qabs. }
    unfold Qltb. rewrite Qle_bool_true by lra. cbn [negb].
    rewrite (advance_entry Pass t1 v p Hm Hp). repeat split; reflexivity.
Qed.

Lemma swipe_scores_once_witness :
  got (St (run [(1100, PointerDown 10 200); (1400, PointerUp 90 230)]
             sampleRound)) = 1%nat.
Proof.
  assert (Hdt : 1400 - 1100 <= 800) by lia.
  assert (Hdy : (Qabs (230 - 200) <= 80)%Q) by (vm_compute; discriminate).
  assert (Hdx : (42 <= 90 - 10)%Q) by (vm_compute; discriminate).
  destruct (swipe_scores_once sampleRound (mkPhrase "Popcorn")
              10 200 90 230 1100 1400 eq_refl eq_refl Hdt Hdy) as [Hgot _].
  exact (proj1 (Hgot Hdx)).
Defined.

(** ** More on the tilt recogniser *)

(** What a call that emitted an action leaves behind. *)
Lemma emitted_disarms (beta : option Q) (now : Z) (s s' : State)
    (a : Action) :
  onDeviceOrientation beta now s = (s', Some a) ->
  tiltArmed s' = false /\ tiltLastActionAt s' = now /\
  shouldListenTilt s' = true /\ a <> Next.
Proof.
  unfold onDeviceOrientation.
  destruct (shouldListenTilt s) eqn:Hl; cbn [negb]; [|discriminate].
  destruct beta as [beta|]; [|discriminate].
  pose proof (listening_calibrated s beta Hl) as Hl'.
  destruct (tiltArmed (calibrateBaseline beta s)); cbn [negb].
  - destruct (_ <? _); [discriminate|].
    destruct (Qle_bool TILT.forwardTriggerDelta _).
    + intros H. injection H as <- <-. repeat split; try exact Hl'. discriminate.
    + destruct (Qle_bool _ TILT.backwardTriggerDelta); [|discriminate].
      intros H. injection H as <- <-. repeat split; try exact Hl'. discriminate.
  - destruct (Qle_bool _ _); discriminate.
Qed.

(** X12: one action per excursion.  The sample that follows an emitted
    action never emits, whatever its angle and however late it arrives:
    the latch is disarmed by the action and a disarmed latch can only
    re-arm. *)
Theorem tilt_never_twice_in_a_row :
  forall (s : State) (beta1 beta2 : option Q) (t1 t2 : Z) (a : Action),
    snd (onDeviceOrientation beta1 t1 s) = Some a ->
    let s1 := fst (onDeviceOrientation beta1 t1 s) in
    snd (onDeviceOrientation beta2 t2 s1) = None /\
    tiltLastActionAt (fst (onDeviceOrientation beta2 t2 s1)) = t1.
Proof.
  intros s beta1 beta2 t1 t2 a H s1.
  destruct (onDeviceOrientation beta1 t1 s) as [s1' a'] eqn:E.
  cbn [snd] in H. subst a'. cbn [fst] in s1. subst s1.
  destruct (emitted_disarms beta1 t1 s s1' a E) as (Ha & Ht & Hl & _).
  destruct beta2 as [beta2|].
  - destruct (tilt_disarmed_silent s1' beta2 t2 Hl Ha) as [Hn Hk].
    split; [exact Hn | rewrite Hk; exact Ht].
  - unfold onDeviceOrientation. rewrite Hl. cbn [negb fst snd].
    split; [reflexivity | exact Ht].
Qed.

Lemma tilt_never_twice_in_a_row_witness :
  snd (onDeviceOrientation (Some 40%Q) 9000
         (fst (onDeviceOrientation (Some 20%Q) 5000 sampleCalibrated))) = None.
Proof.
  apply (tilt_never_twice_in_a_row sampleCalibrated (Some 20%Q) (Some 40%Q)
           5000 9000 Got).
  reflexivity.
Defined.

(** X13: when the recogniser emits.  A sample emits [Got] exactly when tilt
    is enabled in a running round, the latch is armed, at least 700 ms
    have passed since the last action and the sample lies 18 degrees or
    more forward of the baseline as corrected by this sample; [Pass]
    under the same conditions at 18 degrees or more backward; it never
    emits [Next]. *)
Theorem tilt_emits_iff :
  forall (s : State) (beta : Q) (now : Z),
    let delta := (beta - tiltNeutralBeta (calibrateBaseline beta s))%Q in
    let ready := shouldListenTilt s = true /\ tiltArmed s = true /\
                 700 <= now - tiltLastActionAt s in
    (snd (onDeviceOrientation (Some beta) now s) = Some Got <->
       ready /\ (18 <= delta)%Q) /\
    (snd (onDeviceOrientation (Some beta) now s) = Some Pass <->
       ready /\ (delta <= -18)%Q) /\
    snd (onDeviceOrientation (Some beta) now s) <> Some Next.
Proof.
  intros s beta now delta ready. subst ready.
  destruct (calibrate_frame s beta) as (_ & _ & Harm & Hlast & _).
  unfold onDeviceOrientation.
  destruct (shouldListenTilt s) eqn:Hl; cbn [negb].
  2:{ cbn [snd]. repeat split; try discriminate;
      intros (H & _); destruct H as (H & _); discriminate. }
  rewrite Harm, Hlast. fold delta.
  destruct (tiltArmed s) eqn:Ha; cbn [negb].
  2:{ destruct (Qle_bool (Qabs delta) _); cbn [snd];
      (repeat split; try discriminate;
       intros (H & _); destruct H as (_ & H & _); discriminate). }
  unfold TILT.minIntervalMs, TILT.forwardTriggerDelta,
    TILT.backwardTriggerDelta.
  destruct (Z.ltb_spec (now - tiltLastActionAt s) 700) as [Ht | Ht].
  { cbn [snd]. repeat split; try discriminate;
    intros (H & _); destruct H as (_ & _ & H); lia. }
  destruct (Qle_bool 18 delta) eqn:Hf.
  { apply Qle_bool_iff in Hf. cbn [snd]. repeat split; try discriminate;
      try assumption.
    intros (_ & H). lra. }
  assert (Hf' : ~ (18 <= delta)%Q).
  { intros H. apply Qle_bool_iff in H. congruence. }
  destruct (Qle_bool delta (-18)) eqn:Hb.
  { apply Qle_bool_iff in Hb. cbn [snd]. repeat split; try discriminate;
      try assumption.
    intros (_ & H). contradiction. }
  assert (Hb' : ~ (delta <= -18)%Q).
  { intros H. apply Qle_bool_iff in H. congruence. }
  cbn [snd]. repeat split; try discriminate; intros (_ & H); contradiction.
Qed.

(** X14: calibration.  The first sample of a round becomes the baseline
    and cannot emit.  Later, a sample within 14 degrees of the baseline
    pulls the baseline 12% of the way towards itself and cannot emit
    either; a sample further away leaves the baseline where it is. *)
Theorem tilt_calibration :
  forall (s : State) (beta : Q) (now : Z),
    let n := tiltNeutralBeta s in
    let s' := calibrateBaseline beta s in
    (tiltHasBaseline s = false ->
       tiltNeutralBeta s' = beta /\ tiltHasBaseline s' = true /\
       snd (onDeviceOrientation (Some beta) now s) = None) /\
    (tiltHasBaseline s = true -> (Qabs (beta - n) <= 14)%Q ->
       (beta - tiltNeutralBeta s' == (beta - n) * 0.88)%Q /\
       snd (onDeviceOrientation (Some beta) now s) = None) /\
    (tiltHasBaseline s = true -> (14 < Qabs (beta - n))%Q -> s' = s).
Proof.
  intros s beta now n s'.
  assert (Hquiet : (-18 < beta - tiltNeutralBeta s')%Q ->
                   (beta - tiltNeutralBeta s' < 18)%Q ->
                   snd (onDeviceOrientation (Some beta) now s) = None).
  { intros Hlo Hhi.
    destruct (shouldListenTilt s) eqn:Hl.
    - destruct (tiltArmed s) eqn:Ha.
      + rewrite (tilt_idle s beta now Hl Ha Hlo Hhi). reflexivity.
      + apply (tilt_disarmed_silent s beta now Hl Ha).
    - rewrite onDeviceOrientation_not_listening by exact Hl. reflexivity. }
  split; [|split].
  - intros Hb. subst s'. rewrite (calibrate_first s beta Hb) in *.
    fields. repeat split; try reflexivity. apply Hquiet; lra.
  - intros Hb Hnear. subst s'. rewrite (calibrate_near s beta Hb Hnear) in *.
    fields. fold n in Hquiet |- *. unfold TILT.baselineSmoothing in *.
    apply Qabs_Qle_condition in Hnear.
    split; [ring | apply Hquiet; lra].
  - intros Hb Hfar. apply (calibrate_far s beta Hb Hfar).
Qed.

Lemma tilt_calibration_witness :
  (10 - tiltNeutralBeta (calibrateBaseline 10 sampleCalibrated) ==
   (10 - 0) * 0.88)%Q.
Proof.
  assert (Hnear : (Qabs (10 - 0) <= 14)%Q) by (vm_compute; discriminate).
  destruct (tilt_calibration sampleCalibrated 10 5000) as (_ & H & _).
  exact (proj1 (H eq_refl Hnear)).
Defined.

Lemma tilt_quiet_period_witness :
  Forall (fun a => a = None)
    (snd (tiltTrace [(0%Q, 5100); (40%Q, 5300); ((-40)%Q, 5699)]
            (fst (onDeviceOrientation (Some 20%Q) 5000 sampleCalibrated)))).
Proof.
  apply (tilt_quiet_period [(0%Q, 5100); (40%Q, 5300); ((-40)%Q, 5699)]
           (fst (onDeviceOrientation (Some 20%Q) 5000 sampleCalibrated))).
  - reflexivity.
  - repeat (apply Forall_cons; [vm_compute; reflexivity|]). apply Forall_nil.
Defined.

(** X15: the motion permission prompt.  A refusal switches tilt off, and
    from then on every orientation sample is dropped without touching the
    state; a grant (or a platform that needs none) records the permission,
    keeps the tilt option, and attaches the listener at once when a round
    with tilt enabled is running. *)
Theorem motionPermClick_outcome :
  forall (needsPermission granted : bool) (s : State),
    let s' := motionPermClick needsPermission granted s in
    (needsPermission = true -> granted = false ->
       tiltEnabled s' = false /\ tiltPermissionGranted s' = false /\
       tiltListenerAttached s' = tiltListenerAttached s /\
       forall beta now, onDeviceOrientation beta now s' = (s', None)) /\
    (needsPermission = false \/ granted = true ->
       tiltPermissionGranted s' = true /\ tiltEnabled s' = tiltEnabled s /\
       (mode s = Running -> tiltEnabled s = true ->
          tiltListenerAttached s' = true) /\
       (mode s <> Running ->
          tiltListenerAttached s' = tiltListenerAttached s)) /\
    mode s' = mode s /\ index s' = index s /\ shown s' = shown s.
Proof.
  intros np granted s s'. subst s'. destruct s.
  unfold motionPermClick, requestMotionPermission, isRunning,
    maybeEnableTiltDuringGame, attachTiltListener, disableTiltListener.
  split; [|split].
  - intros -> ->. cbn. repeat split.
  - intros Hok.
    destruct np, granted; try (destruct Hok; discriminate);
      destruct mode0, tiltEnabled0, tiltListenerAttached0; cbn;
      repeat split; try reflexivity; congruence.
  - destruct np, granted, mode0, tiltEnabled0, tiltListenerAttached0; cbn;
      repeat split; reflexivity.
Qed.

Lemma motionPermClick_outcome_witness :
  tiltEnabled (motionPermClick true false sampleTiltState) = false.
Proof.
  destruct (motionPermClick_outcome true false sampleTiltState) as [H _].
  exact (proj1 (H eq_refl eq_refl)).
Defined.

(** X21: from orientation events to the score.  In a running round with
    the listener attached, a calibrated and armed recogniser, no action in
    the last 700 ms and a current entry, a sample 18 degrees or more
    forward of the baseline scores exactly one [Got] (18 or more backward:
    one [Pass]): the counters and the position go up by one, the latch is
    disarmed and the time of the action recorded. *)
Theorem tilt_scores_once :
  forall (w : World) (p : Phrase) (beta : Q) (now : Z),
    mode (St w) = Running -> tiltEnabled (St w) = true ->
    tiltListenerAttached (St w) = true ->
    tiltHasBaseline (St w) = true -> tiltArmed (St w) = true ->
    700 <= now - tiltLastActionAt (St w) ->
    nth_error (deck (St w)) (index (St w)) = Some p ->
    let delta := (beta - tiltNeutralBeta (St w))%Q in
    let w' := handle now (Orientation (Some beta)) w in
    ((18 <= delta)%Q ->
       got (St w') = S (got (St w)) /\ pass (St w') = pass (St w) /\
       shown (St w') = S (shown (St w)) /\
       index (St w') = S (index (St w)) /\
       tiltArmed (St w') = false /\ tiltLastActionAt (St w') = now) /\
    ((delta <= -18)%Q ->
       pass (St w') = S (pass (St w)) /\ got (St w') = got (St w) /\
       shown (St w') = S (shown (St w)) /\
       index (St w') = S (index (St w)) /\
       tiltArmed (St w') = false /\ tiltLastActionAt (St w') = now).
Proof.
  intros [s sw q r] p beta now Hm He Hat Hb Ha Ht Hp delta w'.
  cbv [St] in Hm, He, Hat, Hb, Ha, Ht, Hp, delta.
  pose proof (listening_intro s Hm He) as Hl.
  set (s1 := set_tiltLastActionAt now (set_tiltArmed false s)).
  assert (Hfar : (18 <= delta)%Q \/ (delta <= -18)%Q ->
                 calibrateBaseline beta s = s).
  { intros Hd. apply calibrate_far; [exact Hb|]. fold delta.
    destruct Hd as [Hd | Hd].
    - apply Qabs_above. lra.
    - rewrite <- Qabs_opp. apply Qabs_above. lra. }
  assert (Hw : forall a : Action,
             onDeviceOrientation (Some beta) now s = (s1, Some a) ->
             w' = advance a now
                    {| St := s1; Sw := sw; timeouts := q; results := r |}).
  { intros a E. subst w'. cbn [handle St]. rewrite Hat, E. reflexivity. }
  set (v := {| St := s1; Sw := sw; timeouts := q; results := r |}) in Hw.
  assert (Hm1 : mode (St v) = Running) by exact Hm.
  assert (Hp1 : nth_error (deck (St v)) (index (St v)) = Some p) by exact Hp.
  split; intros Hd.
  - rewrite (Hw Got).
    2:{ rewrite (tilt_fire_got s beta now Hl Ha Ht);
          rewrite Hfar by (left; exact Hd); [reflexivity | exact Hd]. }
    rewrite (advance_entry Got now v p Hm1 Hp1). repeat split; reflexivity.
  - rewrite (Hw Pass).
    2:{ rewrite (tilt_fire_pass s beta now Hl Ha Ht);
          rewrite Hfar by (right; exact Hd); [reflexivity | exact Hd]. }
    rewrite (advance_entry Pass now v p Hm1 Hp1). repeat split; reflexivity.
Qed.

Lemma tilt_scores_once_witness :
  pass (St (handle 5000 (Orientation (Some (-30)%Q)) sampleTiltRound)) = 1%nat.
Proof.
  assert (Ht : 700 <= 5000 - 0) by lia.
  assert (Hd : ((-30) - 0 <= -18)%Q) by (vm_compute; discriminate).
  destruct (tilt_scores_once sampleTiltRound (mkPhrase "Popcorn") (-30) 5000
              eq_refl eq_refl eq_refl eq_refl eq_refl Ht eq_refl)
    as [_ Hpass].
  exact (proj1 (Hpass Hd)).
Defined.

(** ** More on the round timer *)

Lemma timerTick_live (now startedAt : Z) (w : World) :
  timerId (St w) = Some startedAt ->
  let left := Z.max 0 (timerSeconds (St w) - (now - startedAt) / 1000) in
  timeLeft (St (timerTick now w)) = left /\
  timerId (St (timerTick now w)) =
    (if left <=? 0 then None else Some startedAt) /\
  timeouts (timerTick now w) =
    (if left <=? 0
     then schedule (now + 250) (RoundFinish timeIsUp) (timeouts w)
     else timeouts w) /\
  mode (St (timerTick now w)) = mode (St w).
Proof.
  intros Hid left. unfold timerTick. rewrite Hid. fields. fold left.
  destruct (left <=? 0).
  - unfold endRound, setTimeout, disableTiltListener. fields.
    destruct (tiltListenerAttached _) eqn:Ha; fields;
      unfold stopTimer; fields; rewrite Hid; fields; repeat split; reflexivity.
  - fields. repeat split; [exact Hid].
Qed.

(** X16: the countdown.  While the timer runs, the reported time is never
    negative, never above the duration once the start instant has passed,
    and never goes up from one poll to a later one.  A poll ends the round
    exactly when the whole number of seconds elapsed since the start,
    [floor((now - startedAt) / 1000)], has reached [timerSeconds]; while it
    is below [timerSeconds] the poll only refreshes the reported time. *)
Theorem timer_countdown :
  forall (w : World) (startedAt now1 now2 : Z),
    timerId (St w) = Some startedAt ->
    0 <= timerSeconds (St w) ->
    let left t := timeLeft (St (timerTick t w)) in
    0 <= left now1 /\
    (startedAt <= now1 -> left now1 <= timerSeconds (St w)) /\
    (now1 <= now2 -> left now2 <= left now1) /\
    (timerId (St (timerTick now1 w)) = None <->
       timerSeconds (St w) <= (now1 - startedAt) / 1000) /\
    ((now1 - startedAt) / 1000 < timerSeconds (St w) ->
       timerTick now1 w =
         with_St (set_timeLeft (left now1) (St w)) w).
Proof.
  intros w startedAt now1 now2 Hid Hpos left.
  destruct (timerTick_live now1 startedAt w Hid) as (H1 & Hi1 & _).
  destruct (timerTick_live now2 startedAt w Hid) as (H2 & _).
  cbv zeta in H1, Hi1, H2. subst left. cbv beta.
  assert (Hdiv : forall t, 1000 * ((t - startedAt) / 1000) <= t - startedAt
                           < 1000 * ((t - startedAt) / 1000) + 1000).
  { intros t. pose proof (Z.div_mod (t - startedAt) 1000).
    pose proof (Z.mod_pos_bound (t - startedAt) 1000). lia. }
  pose proof (Hdiv now1) as D1. pose proof (Hdiv now2) as D2.
  split; [lia|]. split; [lia|]. split; [lia|]. split.
  - rewrite Hi1.
    destruct (Z.leb_spec
                (Z.max 0 (timerSeconds (St w) - (now1 - startedAt) / 1000)) 0)
      as [Hle | Hgt];
      split; intros Hx; try reflexivity; try discriminate; lia.
  - intros Hearly. unfold timerTick. rewrite Hid. fields.
    destruct (Z.leb_spec
                (Z.max 0 (timerSeconds (St w) - (now1 - startedAt) / 1000)) 0)
      as [Hle | Hgt];
      [lia | reflexivity].
Qed.

Lemma timer_countdown_witness :
  timerId (St (timerTick 60999 sampleRound)) <> None /\
  timerId (St (timerTick 61000 sampleRound)) = None.
Proof.
  assert (Hpos : 0 <= timerSeconds (St sampleRound))
    by (vm_compute; discriminate).
  split.
  - destruct (timer_countdown sampleRound 1000 60999 60999 eq_refl Hpos)
      as (_ & _ & _ & H & _).
    intros Hn. apply H in Hn. vm_compute in Hn. apply Hn. reflexivity.
  - destruct (timer_countdown sampleRound 1000 61000 61000 eq_refl Hpos)
      as (_ & _ & _ & H & _).
    apply H. vm_compute. discriminate.
Defined.

(** ** Invariants of the page *)

Lemma wellFormed_frame (s s' : State) :
  index s' = index s -> deck s' = deck s -> shown s' = shown s ->
  got s' = got s -> pass s' = pass s -> timeLeft s' = timeLeft s ->
  timerSeconds s' = timerSeconds s ->
  wellFormed s -> wellFormed s'.
Proof.
  unfold wellFormed. intros -> -> -> -> -> -> ->. exact (fun H => H).
Qed.

Lemma wellFormed_stopTimer (s : State) :
  wellFormed s -> wellFormed (stopTimer s).
Proof. unfold stopTimer. destruct (timerId s); intros H; exact H. Qed.

Lemma wellFormed_disableTiltListener (s : State) :
  wellFormed s -> wellFormed (disableTiltListener s).
Proof.
  unfold disableTiltListener. destruct (tiltListenerAttached s);
    intros H; exact H.
Qed.

Lemma wellFormed_maybeEnable (np : bool) (s : State) :
  wellFormed s -> wellFormed (maybeEnableTiltDuringGame np s).
Proof.
  unfold maybeEnableTiltDuringGame, attachTiltListener.
  destruct (negb (tiltEnabled s)); [apply wellFormed_disableTiltListener|].
  destruct (np && _); [exact (fun H => H)|].
  destruct (tiltListenerAttached s); intros H; exact H.
Qed.

Lemma wellFormed_wrap (s : State) :
  wellFormed s -> wellFormed (set_index 0%nat s).
Proof.
  unfold wellFormed. fields. intros (_ & H). split; [lia | exact H].
Qed.

Lemma wellFormed_endRound (reason : string) (now : Z) (w : World) :
  wellFormed (St w) -> wellFormed (St (endRound reason now w)).
Proof.
  intros H. unfold endRound, setTimeout. fields.
  apply wellFormed_disableTiltListener, wellFormed_stopTimer, H.
Qed.

Lemma wellFormed_advance (action : Action) (now : Z) (w : World) :
  wellFormed (St w) -> wellFormed (St (advance action now w)).
Proof.
  intros H. unfold advance. destruct (isRunning (St w)); cbn [negb]; [|exact H].
  destruct (nth_error (deck (St w)) (index (St w))) as [p|] eqn:Hp.
  - assert (Hlt : (index (St w) < length (deck (St w)))%nat)
      by (apply nth_error_Some; congruence).
    unfold setTimeout. fields.
    destruct H as (_ & Hc & Ht). unfold wellFormed.
    destruct action; fields; (split; [lia | split; [lia | exact Ht]]).
  - destruct (canLoop (St w)).
    + fields. apply wellFormed_wrap, H.
    + apply wellFormed_endRound, H.
Qed.

Lemma consistent_advance (action : Action) (now : Z) (w : World) :
  results (advance action now w) = results w.
Proof.
  unfold advance. destruct (isRunning (St w)); cbn [negb]; [|reflexivity].
  destruct (nth_error _ _); [reflexivity|].
  destruct (canLoop (St w)); reflexivity.
Qed.

Lemma wellFormed_runTask (t : Task) (now : Z) (w : World) :
  wellFormed (St w) /\ consistentResults (results w) ->
  wellFormed (St (runTask t now w)) /\
  consistentResults (results (runTask t now w)).
Proof.
  intros [H Hr]. destruct t as [atEnd | reason]; cbn [runTask].
  - unfold advanceDone. destruct atEnd; [|split; assumption].
    destruct (canLoop (St w)).
    + fields. split; [apply wellFormed_wrap, H | exact Hr].
    + split; [apply wellFormed_endRound, H | exact Hr].
  - unfold roundFinish, renderResults. fields. split; [exact H|].
    unfold consistentResults. fields.
    destruct H as (_ & Hc & _). split; [exact Hc | reflexivity].
Qed.

Lemma wellFormed_fireTimeout (now : Z) (w : World) :
  wellFormed (St w) /\ consistentResults (results w) ->
  wellFormed (St (fireTimeout now w)) /\
  consistentResults (results (fireTimeout now w)).
Proof.
  intros H. unfold fireTimeout.
  destruct (timeouts w) as [|[due t] q]; [exact H|].
  destruct (due <=? now); [|exact H].
  apply wellFormed_runTask. exact H.
Qed.

Lemma wellFormed_runDue (now : Z) (w : World) :
  wellFormed (St w) /\ consistentResults (results w) ->
  wellFormed (St (runDue now w)) /\
  consistentResults (results (runDue now w)).
Proof.
  intros H. unfold runDue. generalize (length (timeouts w)) as n.
  induction n as [|n IH]; [exact H|].
  cbn [Nat.iter nat_rect]. apply wellFormed_fireTimeout, IH.
Qed.

Lemma wellFormed_onDeviceOrientation (beta : option Q) (now : Z) (s : State) :
  wellFormed s -> wellFormed (fst (onDeviceOrientation beta now s)).
Proof.
  intros H. unfold onDeviceOrientation.
  destruct (shouldListenTilt s); cbn [negb]; [|exact H].
  destruct beta as [beta|]; [|exact H].
  assert (Hc : wellFormed (calibrateBaseline beta s)).
  { unfold calibrateBaseline. destruct (tiltHasBaseline s); cbn [negb];
      [destruct (Qle_bool _ _)|]; exact H. }
  destruct (tiltArmed _); cbn [negb].
  - destruct (_ <? _); [exact Hc|].
    destruct (Qle_bool _ _); [exact Hc|].
    destruct (Qle_bool _ _); exact Hc.
  - destruct (Qle_bool _ _); exact Hc.
Qed.

Lemma wellFormed_handle (now : Z) (e : Event) (w : World) :
  wellFormed (St w) /\ consistentResults (results w) ->
  wellFormed (St (handle now e w)) /\
  consistentResults (results (handle now e w)).
Proof.
  intros [H Hr].
  destruct e as [x y | x y | action | | beta | | |]; cbn [handle].
  - split; assumption.
  - destruct (swipeEnd x y now (St w) (Sw w)) as [sw [a|]]; cbn [emit].
    + rewrite consistent_advance. split; [|exact Hr].
      apply wellFormed_advance. exact H.
    + split; assumption.
  - rewrite consistent_advance. split; [|exact Hr].
    apply wellFormed_advance, H.
  - split; [apply wellFormed_endRound, H | exact Hr].
  - destruct (tiltListenerAttached (St w)); [|split; assumption].
    pose proof (wellFormed_onDeviceOrientation beta now (St w) H) as Ho.
    destruct (onDeviceOrientation beta now (St w)) as [s [a|]];
      cbn [fst] in Ho; cbn [emit].
    + rewrite consistent_advance. split; [|exact Hr].
      apply wellFormed_advance. exact Ho.
    + split; assumption.
  - unfold timerTick. destruct (timerId (St w)) as [startedAt|];
      [|split; assumption].
    fields.
    assert (Hs : wellFormed
                   (set_timeLeft
                      (Z.max 0 (timerSeconds (St w) - (now - startedAt) / 1000))
                      (St w))).
    { unfold wellFormed in *. fields.
      destruct H as (Hi & Hc & _ & Ht). repeat split; try assumption; lia. }
    destruct (_ <=? 0).
    + split; [apply wellFormed_endRound; exact Hs | exact Hr].
    + split; assumption.
  - apply wellFormed_runDue. split; assumption.
  - unfold editList. fields. split; [|exact Hr].
    apply (wellFormed_frame (disableTiltListener (stopTimer (St w))));
      try reflexivity.
    apply wellFormed_disableTiltListener, wellFormed_stopTimer, H.
Qed.

Lemma wellFormed_startRound (phrases : list Phrase) (rnd : nat -> nat)
    (np : bool) (now : Z) (w : World) :
  wellFormed (St w) /\ consistentResults (results w) ->
  wellFormed (St (fst (startRound phrases rnd np now w))) /\
  consistentResults (results (fst (startRound phrases rnd np now w))).
Proof.
  intros [H Hr]. destruct phrases as [|p ps]; [split; assumption|].
  destruct w as [s sw q r]. cbv [St results] in H, Hr.
  destruct H as (_ & _ & _ & Ht). destruct s. cbv [timerSeconds] in Ht.
  unfold startRound, startTimer, stopTimer, maybeEnableTiltDuringGame,
    attachTiltListener, disableTiltListener, wellFormed.
  cbn [fst]. fields.
  destruct tiltEnabled0, np, tiltPermissionGranted0, tiltListenerAttached0,
    timerId0; cbn [negb andb]; fields;
    (split; [|exact Hr]); (split; [lia|]); (split; [lia|]); lia.
Qed.

Lemma wellFormed_sync (ui : SetupForm) (s : State) :
  wellFormed s -> wellFormed (syncOptionsFromUI ui s).
Proof.
  unfold wellFormed, syncOptionsFromUI, clamp. fields.
  intros (Hi & Hc & Ht & _). repeat split; try assumption;
    destruct (timerValue ui); lia.
Qed.

(** X17: invariants.  From the freshly loaded page, whatever sequence of
    events, form changes and button clicks occurs at whatever times, the
    position never runs past the deck length, [got + pass] never exceeds
    [shown], the reported time is never negative and the timer setting
    stays between 10 and 600 seconds; any results on display agree with
    these counters. *)
Theorem session_wellFormed :
  forall (needsPermission : bool) (steps : list (Z * Step)),
    wellFormed (St (session needsPermission steps World0)) /\
    consistentResults (results (session needsPermission steps World0)).
Proof.
  intros np steps.
  assert (H0 : wellFormed (St World0) /\ consistentResults (results World0)).
  { unfold wellFormed, consistentResults. cbn. repeat split; lia. }
  revert H0. generalize World0 as w.
  induction steps as [|[now st] rest IH]; intros w H; [exact H|].
  cbn [session]. apply IH.
  destruct st as [e | ui | ui phrases rnd | phrases rnd | granted];
    cbn [step].
  - apply wellFormed_handle, H.
  - fields. split; [apply wellFormed_sync|]; apply H.
  - unfold startClick. apply wellFormed_startRound. fields.
    split; [apply wellFormed_sync|]; apply H.
  - unfold playAgain.
    pose proof (wellFormed_startRound phrases rnd np now
                  (with_St (set_shuffleOnStart true (St w)) w)) as Hs.
    destruct (startRound phrases rnd np now
                (with_St (set_shuffleOnStart true (St w)) w)) as [w' out].
    cbn [fst] in *. fields.
    destruct Hs as [Hs Hr]; [split; [|apply H]; apply H|].
    split; [exact Hs | exact Hr].
  - fields. split; [|apply H]. destruct H as [H _].
    revert H. destruct (St w). unfold motionPermClick,
      requestMotionPermission, isRunning, maybeEnableTiltDuringGame,
      attachTiltListener, disableTiltListener, wellFormed.
    destruct np, granted, mode0, tiltEnabled0, tiltListenerAttached0; cbn;
      exact (fun H => H).
Qed.

(** ** Phrase list parsing *)

Lemma trimStart_head (s : string) :
  match trimStart s with
  | String c _ => isWhiteSpace c = false
  | EmptyString => True
  end.
Proof.
  induction s as [|c r IH]; cbn [trimStart]; [exact I|].
  destruct (isWhiteSpace c) eqn:E; [exact IH | exact E].
Qed.

Lemma trimStart_fixed (s : string) :
  match s with
  | String c _ => isWhiteSpace c = false
  | EmptyString => True
  end -> trimStart s = s.
Proof. destruct s as [|c r]; cbn [trimStart]; [reflexivity|]. intros ->. reflexivity. Qed.

Lemma trimEnd_head (s : string) :
  match s with
  | String c _ => isWhiteSpace c = false
  | EmptyString => True
  end ->
  match trimEnd s with
  | String c _ => isWhiteSpace c = false
  | EmptyString => True
  end.
Proof.
  destruct s as [|c r]; cbn [trimEnd]; [exact (fun H => H)|].
  intros H. destruct (trimEnd r); [rewrite H|]; exact H.
Qed.

Lemma trimEnd_idempotent (s : string) : trimEnd (trimEnd s) = trimEnd s.
Proof.
  induction s as [|c r IH]; [reflexivity|].
  cbn [trimEnd]. destruct (trimEnd r) as [|c' r'] eqn:E.
  - destruct (isWhiteSpace c) eqn:W; [reflexivity|].
    cbn [trimEnd]. rewrite W. reflexivity.
  - cbn [trimEnd] in *. rewrite IH. reflexivity.
Qed.

Lemma trim_idempotent (s : string) : trim (trim s) = trim s.
Proof.
  unfold trim.
  rewrite (trimStart_fixed (trimEnd (trimStart s))).
  - apply trimEnd_idempotent.
  - apply trimEnd_head, trimStart_head.
Qed.

Lemma consHead_concat (sep : string) (c : ascii) (parts : list string) :
  parts <> [] ->
  String.concat sep (consHead c parts) = String c (String.concat sep parts).
Proof.
  destruct parts as [|a [|b l]]; [congruence| |]; intros _; reflexivity.
Qed.

Lemma consHead_nonempty (c : ascii) (parts : list string) :
  consHead c parts <> [].
Proof. destruct parts; discriminate. Qed.

Lemma splitColons_nonempty (s : string) : splitColons s <> [].
Proof.
  destruct s as [|c [|c2 r]]; cbn [splitColons].
  - discriminate.
  - apply consHead_nonempty.
  - destruct (_ && _); [discriminate | apply consHead_nonempty].
Qed.

Lemma string_pair_ind (P : string -> Prop) :
  P EmptyString ->
  (forall c, P (String c EmptyString)) ->
  (forall c c2 r, P r -> P (String c2 r) -> P (String c (String c2 r))) ->
  forall s, P s.
Proof.
  intros H0 H1 H2.
  assert (H : forall s, P s /\ forall c, P (String c s)).
  { induction s as [|c2 r [IH1 IH2]]; split; auto. }
  intros s. apply H.
Qed.

Lemma splitColons_step (c c2 : ascii) (r : string) :
  splitColons (String c (String c2 r)) =
    if Ascii.eqb c ":"%char && Ascii.eqb c2 ":"%char
    then EmptyString :: splitColons r
    else consHead c (splitColons (String c2 r)).
Proof. reflexivity. Qed.

Lemma splitColons_join (s : string) : String.concat "::"%string (splitColons s) = s.
Proof.
  revert s.
  apply (string_pair_ind
           (fun s => String.concat "::"%string (splitColons s) = s));
    [reflexivity | intros c; reflexivity | intros c c2 r IHr IH].
  rewrite splitColons_step.
  destruct (Ascii.eqb c ":"%char && Ascii.eqb c2 ":"%char) eqn:E.
  - apply andb_true_iff in E. destruct E as [E1 E2].
    apply Ascii.eqb_eq in E1, E2. subst c c2.
    pose proof (splitColons_nonempty r) as Hne.
    destruct (splitColons r) as [|a l] eqn:Er; [congruence|].
    change (String.concat "::"%string (EmptyString :: a :: l))
      with ("::" ++ String.concat "::"%string (a :: l))%string.
    rewrite IHr. reflexivity.
  - rewrite consHead_concat by apply splitColons_nonempty.
    rewrite IH. reflexivity.
Qed.

Lemma no_colon_split (p h : string) :
  (forall c, In c (list_ascii_of_string p) -> c <> ":"%char) ->
  splitColons (p ++ "::" ++ h)%string = p :: splitColons h.
Proof.
  induction p as [|c r IH]; intros Hp.
  - reflexivity.
  - assert (Hc : Ascii.eqb c ":"%char = false).
    { apply Ascii.eqb_neq, Hp. left. reflexivity. }
    assert (Hr : forall c', In c' (list_ascii_of_string r) -> c' <> ":"%char).
    { intros c' Hin. apply Hp. right. exact Hin. }
    specialize (IH Hr).
    change (String c r ++ "::" ++ h)%string
      with (String c (r ++ "::" ++ h)%string).
    destruct (r ++ "::" ++ h)%string as [|c2 r'] eqn:E.
    + destruct r; discriminate.
    + rewrite splitColons_step, Hc. cbn [andb]. rewrite IH. reflexivity.
Qed.

Lemma parsePhrases_In (text : string) (o : Phrase) :
  In o (parsePhrases text) ->
  exists line, o = parseLine (trim line) /\ In line (splitLines text) /\
               trim line <> EmptyString /\
               startsWithHash (trim line) = false /\
               phrase o <> EmptyString.
Proof.
  unfold parsePhrases. intros H.
  apply filter_In in H. destruct H as [H Hlen].
  apply in_map_iff in H. destruct H as (l & <- & H).
  apply filter_In in H. destruct H as [H Hhash].
  apply filter_In in H. destruct H as [H Hne].
  apply in_map_iff in H. destruct H as (line & <- & H).
  exists line. repeat split; try assumption.
  - intros E. rewrite E in Hne. discriminate.
  - apply negb_true_iff, Hhash.
  - intros E. rewrite E in Hlen. discriminate.
Qed.

(** X18: every entry [parsePhrases] returns has a non-empty phrase, and
    neither its phrase nor its hint begins or ends with white space
    (trimming them again changes nothing); the list has at most one entry
    per line of the text. *)
Theorem parsePhrases_clean :
  forall (text : string),
    (forall o : Phrase,
        In o (parsePhrases text) ->
        phrase o <> EmptyString /\
        trim (phrase o) = phrase o /\ trim (hint o) = hint o) /\
    (length (parsePhrases text) <= length (splitLines text))%nat.
Proof.
  intros text. split.
  - intros o H.
    destruct (parsePhrases_In text o H) as (line & -> & _ & _ & _ & Hp).
    split; [exact Hp|]. unfold parseLine. cbn [phrase hint].
    split; apply trim_idempotent.
  - unfold parsePhrases.
    eapply Nat.le_trans; [apply filter_length_le|]. rewrite length_map.
    eapply Nat.le_trans; [apply filter_length_le|].
    eapply Nat.le_trans; [apply filter_length_le|].
    rewrite length_map. apply Nat.le_refl.
Qed.

(** X19: the separator.  Splitting a line at "::" and joining the pieces
    with "::" gives the line back, so for a line whose phrase part has no
    colon the phrase is the trimmed text before the first "::" and the
    hint is the whole trimmed text after it, further "::" included. *)
Theorem parseLine_separator :
  forall (p h : string),
    (forall c, In c (list_ascii_of_string p) -> c <> ":"%char) ->
    String.concat "::"%string (splitColons (p ++ "::" ++ h)%string) =
      (p ++ "::" ++ h)%string /\
    phrase (parseLine (p ++ "::" ++ h)%string) = trim p /\
    hint (parseLine (p ++ "::" ++ h)%string) = trim h.
Proof.
  intros p h Hp. split; [apply splitColons_join|].
  unfold parseLine. rewrite (no_colon_split p h Hp). cbn [hd tl phrase hint].
  rewrite splitColons_join. split; reflexivity.
Qed.

Lemma parseLine_separator_witness :
  hint (parseLine "Popcorn :: Snack :: salty"%string) =
    "Snack :: salty"%string.
Proof.
  assert (Hp : forall c, In c (list_ascii_of_string "Popcorn "%string) ->
                         c <> ":"%char).
  { intros c Hin. cbn in Hin.
    repeat (destruct Hin as [<- | Hin]; [discriminate|]). contradiction. }
  destruct (parseLine_separator "Popcorn "%string " Snack :: salty"%string Hp)
    as (_ & _ & H).
  exact H.
Defined.

Lemma filters_drop_all (lines : list string) :
  (forall line, In line lines ->
     trim line = EmptyString \/ startsWithHash (trim line) = true) ->
  filter (fun l => negb (startsWithHash l))
    (filter (fun l => (0 <? String.length l)%nat) (map trim lines)) = [].
Proof.
  induction lines as [|line rest IH]; intros H; [reflexivity|].
  cbn [map filter].
  assert (Hrest : forall l, In l rest ->
                    trim l = EmptyString \/ startsWithHash (trim l) = true).
  { intros l Hin. apply H. right. exact Hin. }
  destruct (H line (or_introl eq_refl)) as [He | Hh].
  - rewrite He. cbn. apply IH, Hrest.
  - destruct (0 <? String.length (trim line))%nat; [|apply IH, Hrest].
    cbn [filter]. rewrite Hh. cbn [negb]. apply IH, Hrest.
Qed.

(** X20: a text in which every line is blank or, after trimming, starts
    with "#" holds no phrase, and [startRound] on it raises the validation
    alert and leaves the page as it was. *)
Theorem parsePhrases_comments_only :
  forall (text : string) (rnd : nat -> nat) (needsPermission : bool)
         (now : Z) (w : World),
    (forall line, In line (splitLines text) ->
       trim line = EmptyString \/ startsWithHash (trim line) = true) ->
    parsePhrases text = [] /\
    startRound (parsePhrases text) rnd needsPermission now w =
      (w, ValidationError noPhrases).
Proof.
  intros text rnd np now w H.
  assert (E : parsePhrases text = []).
  { unfold parsePhrases. rewrite (filters_drop_all _ H). reflexivity. }
  rewrite E. split; reflexivity.
Qed.

Lemma parsePhrases_comments_only_witness :
  startRound (parsePhrases commentsOnly) noShuffle false 1000 World0 =
    (World0, ValidationError noPhrases).
Proof.
  apply (parsePhrases_comments_only commentsOnly noShuffle false 1000 World0).
  intros line Hin. cbn in Hin.
  destruct Hin as [<- | [<- | [<- | []]]];
    [right; reflexivity | left; reflexivity | right; reflexivity].
Defined.

(** ** Deferred callbacks across rounds *)







